(** * Source analysis and resolution engine of epistemic-check-mcp

    A shallow embedding of the three analyzers of the repository,
    [ASTAnalyzer] (ast-analyzer.ts), [ImportTracker] (import-tracker.ts) and
    [SignatureValidator] (signature-validator.ts), and the properties of
    their specification proved or refuted on it; with them, the cache
    builder of [ExportsMapResource] (exports-map.ts), which calls the
    tracker, and [findDuplicates] of [ConsistencyCheckTools].

    Exceptions are an error monad ([outcome]), the caches of the three
    classes are finite maps threaded through the calls, and the paths handed
    to [existsSync] are logged in the result of the resolver.

    What the embedding takes from outside the repository:
    - the file system ([readFileSync], [existsSync]), the parser
      ([parser.parse]) and the [path] module are fields of a [Host] record;
      the general theorems quantify over the host, and the evaluations on
      concrete files use the hosts of module [Sample];
    - the traversal of @babel/traverse is modelled as documented: nodes are
      entered depth first, a parent before its children, and a function
      stored in a visitor object under a node type is called when a node of
      that type is entered;
    - [this] inside a visitor callback is bound by whoever calls the
      callback, that is by the traversal library, which calls it on the
      state it was handed.  The repository hands it the tree and the
      visitor object only, so the callbacks run with [this] undefined:
      [Unbound], which reads [this.m(...)] as a property access on
      [undefined], is the binding of the program.  [BoundToInstance]
      reads [this.m(...)] as the method [m] of the enclosing class
      instance, which is what the callbacks are written for; a statement
      that mentions it says what the code would do were the instance
      bound, and says so.

    What it takes from the repository as it is: [ImportTracker] traverses
    with [this.analyzer["traverse"]], and [ASTAnalyzer] declares no such
    member.  The functions of [ImportTracker] are therefore defined over the
    value read from that property ([extractImports_with] and the like), and
    the functions of the source are their instances at [analyzer_traverse],
    the value the read yields. *)

From Stdlib Require Import String Ascii List Bool Arith Lia DecimalString.
From stdpp Require Import base option gmap strings.
Import ListNotations.
Open Scope string_scope.
Open Scope list_scope.
Set Warnings "-register-all".

(** ** JavaScript values and exceptions *)

Module Js.

(** Thrown values.  [AnalysisError] is the repository's error class
    (message, filePath; its [line] is never set by the analyzers); every
    other thrown value is an [Error] of another class. *)
Inductive JsError : Type :=
| AnalysisError (message : string) (filePath : option string)
| OtherError (name : string) (message : string).

(** [error instanceof AnalysisError] *)
Definition instanceof_AnalysisError (e : JsError) : bool :=
  match e with
  | AnalysisError _ _ => true
  | OtherError _ _ => false
  end.

(** [error instanceof Error ? error.message : String(error)]; every thrown
    value of the model is an [Error]. *)
Definition error_message (e : JsError) : string :=
  match e with
  | AnalysisError m _ => m
  | OtherError _ m => m
  end.

Definition error_filePath (e : JsError) : option string :=
  match e with
  | AnalysisError _ p => p
  | OtherError _ _ => None
  end.

(** A computation either completes with a value or throws. *)
Inductive outcome (A : Type) : Type :=
| Ok (a : A)
| Throw (e : JsError).
Arguments Ok {A} a.
Arguments Throw {A} e.

Definition bind {A B} (m : outcome A) (k : A -> outcome B) : outcome B :=
  match m with
  | Ok a => k a
  | Throw e => Throw e
  end.

(** [try { body } catch (error) { handler }] *)
Definition try_catch {A} (body : outcome A) (handler : JsError -> outcome A)
  : outcome A :=
  match body with
  | Ok a => Ok a
  | Throw e => handler e
  end.

(** What a function of a library outside the repository does: it returns,
    or it throws an [Error] of the library's own (class name, message),
    never the repository's [AnalysisError]. *)
Definition library_result (A : Type) : Type := (A + string * string)%type.

Definition from_library {A} (r : library_result A) : outcome A :=
  match r with
  | inl a => Ok a
  | inr (name, message) => Throw (OtherError name message)
  end.

(** Truthiness of a [string | undefined | null] value: the empty string is
    falsy. *)
Definition truthy (s : option string) : bool :=
  match s with
  | Some s => negb (String.eqb s "")
  | None => false
  end.

(** [value !== undefined && value !== null] *)
Definition present {A} (o : option A) : bool :=
  match o with
  | Some _ => true
  | None => false
  end.

(** A number inside a template literal: [`${n}`]. *)
Definition number_to_string (n : nat) : string :=
  NilEmpty.string_of_uint (Nat.to_uint n).

(** [xs.join(sep)] on an array of strings. *)
Definition join (sep : string) (xs : list string) : string :=
  String.concat sep xs.

(** [s.startsWith(p)] *)
Definition startsWith (s p : string) : bool := String.prefix p s.

(** [xs.includes(x)] on an array of strings. *)
Definition includes (xs : list string) (x : string) : bool :=
  existsb (String.eqb x) xs.

(** [xs.find(pred)] *)
Definition find {A} (pred : A -> bool) (xs : list A) : option A :=
  List.find pred xs.

(** What [this] denotes inside a visitor callback. *)
Inductive this_binding : Type :=
| BoundToInstance
| Unbound.

(** [this.method(args)] inside a visitor callback, where [result] is what
    the method of the enclosing instance returns.  On [undefined], which is
    what [this] is when the program runs a callback, the property access
    throws a TypeError (message text as V8 prints it). *)
Definition call_this {A} (this : this_binding) (method : string) (result : A)
  : outcome A :=
  match this with
  | BoundToInstance => Ok result
  | Unbound =>
      Throw (OtherError "TypeError"
               ("Cannot read properties of undefined (reading '" +:+ method +:+ "')"))
  end.

End Js.
Export Js.

Notation "'let*' x ':=' m 'in' k" := (Js.bind m (fun x => k))
  (at level 10, x name, m at level 100, k at level 200).

(** ** Syntax trees (the part of the Babel AST the analyzers inspect) *)

Module Ast.

Record SourceLocation : Type := { start_line : nat; start_column : nat }.

(** [typeName] of a [TSTypeReference]: an identifier or a qualified name. *)
Inductive TSEntityName : Type :=
| TSIdentifier (name : string)
| TSQualifiedName.

Inductive TSType : Type :=
| TSStringKeyword
| TSNumberKeyword
| TSBooleanKeyword
| TSVoidKeyword
| TSAnyKeyword
| TSUnknownKeyword
| TSTypeReference (typeName : TSEntityName)
| TSArrayType (elementType : TSType)
| TSUnionType (types : list TSType)
| TSOtherType.

(** The [typeAnnotation] / [returnType] slot of a node. *)
Inductive annotation : Type :=
| TSTypeAnnotation (typeAnnotation : TSType)
| OtherAnnotation.

Inductive function_kind : Type :=
| FunctionDeclaration
| FunctionExpression
| ArrowFunctionExpression.

(** The name slot of an import or export specifier: an identifier, or a
    string literal (which has no [name] property). *)
Inductive module_export_name : Type :=
| NameIdentifier (name : string)
| NameStringLiteral (value : string).

(** Slots that Babel types as [Identifier] (or [Identifier | null]) hold the
    identifier's name; slots that admit other node types hold a node.  The
    [ClassBody] node between a class and its members is folded into the
    class: [body] of [ClassDeclaration] is [node.body.body] (no visitor of
    the repository is keyed on [ClassBody]).  A class has no slot for
    decorators: the parser is called with the plugins [typescript] and
    [jsx] only and rejects a decorator. *)
Inductive node : Type :=
| Identifier (name : string) (optional : bool) (typeAnnotation : option annotation)
| StringLiteral (value : string)
| Import
| CallExpression (callee : node) (arguments : list node) (loc : option SourceLocation)
| MemberExpression (object property : node)
| Function_ (kind : function_kind) (id : option string) (params : list node)
    (returnType : option annotation) (async generator : bool) (body : node)
    (loc : option SourceLocation)
| VariableDeclaration (declarations : list node)
| VariableDeclarator (id : node) (init : option node) (loc : option SourceLocation)
| ClassDeclaration (id : option string) (superClass : option node)
    (body : list node) (loc : option SourceLocation)
| ClassMethod (key : node) (computed : bool) (params : list node)
    (returnType : option annotation) (async generator : bool) (body : node)
    (loc : option SourceLocation)
| TSInterfaceDeclaration (id : string) (loc : option SourceLocation)
| TSTypeAliasDeclaration (id : string) (loc : option SourceLocation)
| ExportNamedDeclaration (declaration : option node) (specifiers : list node)
    (source : option string)
| ExportSpecifier (local : string) (exported : module_export_name)
    (loc : option SourceLocation)
| ExportNamespaceSpecifier (exported : string)
| ExportDefaultDeclaration (declaration : node) (loc : option SourceLocation)
| ExportAllDeclaration (source : string) (loc : option SourceLocation)
| ImportDeclaration (specifiers : list node) (source : string)
    (importKind : option string) (loc : option SourceLocation)
| ImportDefaultSpecifier (local : string)
| ImportNamespaceSpecifier (local : string)
| ImportSpecifier (imported : module_export_name) (local : string)
| ExpressionStatement (expression : node)
| BlockStatement (body : list node)
| Program (body : list node)
| File (program : node)
| OtherNode (type : string) (children : list node).

(** [node.type] *)
Definition node_type (n : node) : string :=
  match n with
  | Identifier _ _ _ => "Identifier"
  | StringLiteral _ => "StringLiteral"
  | Import => "Import"
  | CallExpression _ _ _ => "CallExpression"
  | MemberExpression _ _ => "MemberExpression"
  | Function_ FunctionDeclaration _ _ _ _ _ _ _ => "FunctionDeclaration"
  | Function_ FunctionExpression _ _ _ _ _ _ _ => "FunctionExpression"
  | Function_ ArrowFunctionExpression _ _ _ _ _ _ _ => "ArrowFunctionExpression"
  | VariableDeclaration _ => "VariableDeclaration"
  | VariableDeclarator _ _ _ => "VariableDeclarator"
  | ClassDeclaration _ _ _ _ => "ClassDeclaration"
  | ClassMethod _ _ _ _ _ _ _ _ => "ClassMethod"
  | TSInterfaceDeclaration _ _ => "TSInterfaceDeclaration"
  | TSTypeAliasDeclaration _ _ => "TSTypeAliasDeclaration"
  | ExportNamedDeclaration _ _ _ => "ExportNamedDeclaration"
  | ExportSpecifier _ _ _ => "ExportSpecifier"
  | ExportNamespaceSpecifier _ => "ExportNamespaceSpecifier"
  | ExportDefaultDeclaration _ _ => "ExportDefaultDeclaration"
  | ExportAllDeclaration _ _ => "ExportAllDeclaration"
  | ImportDeclaration _ _ _ _ => "ImportDeclaration"
  | ImportDefaultSpecifier _ => "ImportDefaultSpecifier"
  | ImportNamespaceSpecifier _ => "ImportNamespaceSpecifier"
  | ImportSpecifier _ _ => "ImportSpecifier"
  | ExpressionStatement _ => "ExpressionStatement"
  | BlockStatement _ => "BlockStatement"
  | Program _ => "Program"
  | File _ => "File"
  | OtherNode type _ => type
  end.

(** [loc?.start.line] and [loc?.start.column] *)
Definition loc_line (loc : option SourceLocation) : option nat :=
  start_line <$> loc.
Definition loc_column (loc : option SourceLocation) : option nat :=
  start_column <$> loc.

(** The [name] property of a specifier name slot; a string literal has
    none. *)
Definition export_name_name (n : module_export_name) : option string :=
  match n with
  | NameIdentifier name => Some name
  | NameStringLiteral _ => None
  end.

(** A possibly undefined string interpolated into a template literal. *)
Definition template_value (o : option string) : string :=
  match o with
  | Some s => s
  | None => "undefined"
  end.

(** *** Traversal *)

(** A visitor callback receives the entered node and acts on the state its
    closure captured (the array it pushes to); it may throw. *)
Definition handler (S : Type) : Type := node -> S -> outcome S.

(** An object literal [{ k1(path) {...}, k2(path) {...}, ... }] as the list
    of its properties in source order.  Reading a key yields the last
    property written under it: a later duplicate replaces an earlier one. *)
Fixpoint object_get {A} (props : list (string * A)) (key : string) : option A :=
  match props with
  | [] => None
  | (k, v) :: rest =>
      match object_get rest key with
      | Some v' => Some v'
      | None => if String.eqb k key then Some v else None
      end
  end.

Section Traverse.
Context {S : Type} (visitors : list (string * handler S)).

Definition enter (n : node) (s : S) : outcome S :=
  match object_get visitors (node_type n) with
  | Some h => h n s
  | None => Ok s
  end.

(** Depth-first, parent before children, children in the order of
    Babel's visitor keys. *)
Fixpoint visit (n : node) (s : S) {struct n} : outcome S :=
  let visit_list :=
    fix go (l : list node) (s : S) {struct l} : outcome S :=
      match l with
      | [] => Ok s
      | x :: r => let* s' := visit x s in go r s'
      end in
  let visit_opt (o : option node) (s : S) : outcome S :=
    match o with
    | Some x => visit x s
    | None => Ok s
    end in
  let* s1 := enter n s in
  match n with
  | Identifier _ _ _ | StringLiteral _ | Import => Ok s1
  | CallExpression callee args _ =>
      let* s2 := visit callee s1 in visit_list args s2
  | MemberExpression o p =>
      let* s2 := visit o s1 in visit p s2
  | Function_ _ _ params _ _ _ body _ =>
      let* s2 := visit_list params s1 in visit body s2
  | VariableDeclaration ds => visit_list ds s1
  | VariableDeclarator id init _ =>
      let* s2 := visit id s1 in visit_opt init s2
  | ClassDeclaration _ superClass body _ =>
      let* s2 := visit_opt superClass s1 in visit_list body s2
  | ClassMethod key _ params _ _ _ body _ =>
      let* s2 := visit key s1 in
      let* s3 := visit_list params s2 in visit body s3
  | TSInterfaceDeclaration _ _ | TSTypeAliasDeclaration _ _ => Ok s1
  | ExportNamedDeclaration d specs _ =>
      let* s2 := visit_opt d s1 in visit_list specs s2
  | ExportSpecifier _ _ _ | ExportNamespaceSpecifier _ => Ok s1
  | ExportDefaultDeclaration d _ => visit d s1
  | ExportAllDeclaration _ _ => Ok s1
  | ImportDeclaration specs _ _ _ => visit_list specs s1
  | ImportDefaultSpecifier _ | ImportNamespaceSpecifier _
  | ImportSpecifier _ _ => Ok s1
  | ExpressionStatement e => visit e s1
  | BlockStatement b => visit_list b s1
  | Program b => visit_list b s1
  | File p => visit p s1
  | OtherNode _ cs => visit_list cs s1
  end.

(** [traverse.default(ast, visitors)] started on state [s]. *)
Definition traverse_default (ast : node) (s : S) : outcome S := visit ast s.
End Traverse.

End Ast.
Export Ast.

(** ** The outside world *)

Record Host : Type := {
  (** [readFileSync(path, "utf-8")]: the content, or the error it throws *)
  readFileSync : string -> library_result string;
  (** [existsSync(path)] *)
  existsSync : string -> bool;
  (** [parser.parse(code, {sourceType: "module", plugins: [...]})] *)
  parser_parse : string -> library_result node;
  (** [dirname], [resolve] and [join] of the [path] module *)
  path_dirname : string -> string;
  path_resolve : string -> string -> string;
  path_join : string -> string -> string;
  (** what [this] is inside a visitor callback: [Unbound] in every run of
      the program, whose traversals are handed no state *)
  visitor_this : this_binding
}.

(** ** Result records (types/index.ts) *)

(** The string-literal union ["function" | "class" | "variable" | "import" |
    "type" | "interface"]. *)
Module Kind.
Inductive t : Type :=
| function | class | variable | import | type | interface.
End Kind.

Module SymbolInfo.
Record t : Type := {
  name : string;
  type : Kind.t;
  filePath : string;
  line : option nat;
  column : option nat;
  signature : option string;
  exported : bool
}.
(** [symbol.exported = true] *)
Definition set_exported (s : t) : t :=
  {| name := name s; type := type s; filePath := filePath s; line := line s;
     column := column s; signature := signature s; exported := true |}.
End SymbolInfo.

Module Parameter_.
Record t : Type := {
  name : string;
  type : option string;
  optional : bool
}.
End Parameter_.

Module FunctionSignature.
Record t : Type := {
  name : string;
  parameters : list Parameter_.t;
  returnType : option string;
  filePath : string;
  line : option nat;
  isAsync : bool;
  isGenerator : bool
}.
End FunctionSignature.

Module ImportInfo.
Record t : Type := {
  path : string;
  source : string;
  specifiers : list string;
  isTypeOnly : bool;
  line : option nat
}.
End ImportInfo.

Module ExportInfo.
Record t : Type := {
  name : option string;
  type : Kind.t;
  filePath : string;
  line : option nat;
  signature : option string
}.
End ExportInfo.

(** ** ASTAnalyzer (ast-analyzer.ts) *)

Module ASTAnalyzer.

(** [private cache: Map<string, t.File>] *)
Abbreviation cache := (gmap string node).

(** [parse(code, filePath)] *)
Definition parse (h : Host) (c : cache) (code filePath : string)
  : outcome node * cache :=
  match c !! filePath with
  | Some ast => (Ok ast, c)
  | None =>
      match from_library (parser_parse h code) with
      | Ok ast => (Ok ast, <[filePath := ast]> c)
      | Throw error =>
          (Throw (AnalysisError
                    ("Failed to parse file: " +:+ error_message error)
                    (Some filePath)), c)
      end
  end.

(** The catch branch of [parseFile]. *)
Definition parseFile_catch {A} (filePath : string) (error : JsError) : outcome A :=
  if instanceof_AnalysisError error then Throw error
  else Throw (AnalysisError
                ("Failed to read file: " +:+ error_message error)
                (Some filePath)).

(** [parseFile(filePath)] *)
Definition parseFile (h : Host) (c : cache) (filePath : string)
  : outcome node * cache :=
  match from_library (readFileSync h filePath) with
  | Throw error => (parseFile_catch filePath error, c)
  | Ok code =>
      let '(r, c') := parse h c code filePath in
      (try_catch r (parseFile_catch filePath), c')
  end.

(** [tsTypeToString(type)] *)
Fixpoint tsTypeToString (ty : TSType) : string :=
  match ty with
  | TSStringKeyword => "string"
  | TSNumberKeyword => "number"
  | TSBooleanKeyword => "boolean"
  | TSVoidKeyword => "void"
  | TSAnyKeyword => "any"
  | TSUnknownKeyword => "unknown"
  | TSTypeReference (TSIdentifier name) => name
  | TSTypeReference TSQualifiedName => "unknown"
  | TSArrayType elementType => tsTypeToString elementType +:+ "[]"
  | TSUnionType types => Js.join " | " (map tsTypeToString types)
  | TSOtherType => "unknown"
  end.

(** [extractTypeAnnotation(param)] *)
Definition extractTypeAnnotation (param : node) : option string :=
  match param with
  | Identifier _ _ (Some (TSTypeAnnotation ty)) => Some (tsTypeToString ty)
  | _ => None
  end.

(** [extractReturnType(node)], on the node's [returnType] slot *)
Definition extractReturnType (returnType : option annotation) : option string :=
  match returnType with
  | Some (TSTypeAnnotation ty) => Some (tsTypeToString ty)
  | _ => None
  end.

(** The callback of [node.params.map(...)] in both signature generators. *)
Definition render_param (param : node) : string :=
  match param with
  | Identifier name optional _ => if optional then name +:+ "?" else name
  | _ => "(...)"
  end.

(** [generateFunctionSignature(node)], on the fields of a function node *)
Definition generateFunctionSignature (kind : function_kind) (id : option string)
    (params : list node) (returnType : option annotation)
    (async generator : bool) : string :=
  let name := match id with Some name => name | None => "anonymous" end in
  let params := Js.join ", " (map render_param params) in
  let signature := name +:+ "(" +:+ params +:+ ")" in
  let signature := if async then "async " +:+ signature else signature in
  let is_arrow :=
    match kind with ArrowFunctionExpression => true | _ => false end in
  let signature :=
    if generator && negb is_arrow then "function* " +:+ signature
    else if negb is_arrow then "function " +:+ signature
    else signature in
  let returnType := extractReturnType returnType in
  if truthy returnType
  then signature +:+ ": " +:+ template_value returnType
  else signature.

(** [generateMethodSignature(node)], on the fields of a class method *)
Definition generateMethodSignature (key : node) (params : list node)
    (returnType : option annotation) (async generator : bool) : string :=
  let name := match key with Identifier name _ _ => name | _ => "anonymous" end in
  let params := Js.join ", " (map render_param params) in
  let signature := name +:+ "(" +:+ params +:+ ")" in
  let signature := if async then "async " +:+ signature else signature in
  let signature := if generator then "*" +:+ signature else signature in
  let returnType := extractReturnType returnType in
  if truthy returnType
  then signature +:+ ": " +:+ template_value returnType
  else signature.

(** [const symbol = symbols.find(s => s.name === name);
     if (symbol) symbol.exported = true;] *)
Fixpoint promote (name : string) (symbols : list SymbolInfo.t)
  : list SymbolInfo.t :=
  match symbols with
  | [] => []
  | s :: rest =>
      if String.eqb (SymbolInfo.name s) name
      then SymbolInfo.set_exported s :: rest
      else s :: promote name rest
  end.

(** [xs.forEach(f)] with a callback that may throw. *)
Fixpoint forEach {A S} (f : A -> S -> outcome S) (xs : list A) (s : S)
  : outcome S :=
  match xs with
  | [] => Ok s
  | x :: rest => let* s' := f x s in forEach f rest s'
  end.

(** [xs.map(f)] with a callback that may throw. *)
Fixpoint map_outcome {A B} (f : A -> outcome B) (xs : list A)
  : outcome (list B) :=
  match xs with
  | [] => Ok []
  | x :: rest =>
      let* y := f x in
      let* ys := map_outcome f rest in
      Ok (y :: ys)
  end.

Section ExtractSymbols.
Variable this : this_binding.
Variable filePath : string.

Definition mk_symbol (name : string) (type : Kind.t)
    (loc : option SourceLocation) (signature : option string)
  : SymbolInfo.t :=
  {| SymbolInfo.name := name; SymbolInfo.type := type;
     SymbolInfo.filePath := filePath;
     SymbolInfo.line := loc_line loc; SymbolInfo.column := loc_column loc;
     SymbolInfo.signature := signature; SymbolInfo.exported := false |}.

(** The export promotion shared by the first three branches of
    [ExportNamedDeclaration] and by [ExportDefaultDeclaration]. *)
Definition promote_declarators (declarations : list node)
    (symbols : list SymbolInfo.t) : list SymbolInfo.t :=
  fold_left
    (fun symbols declaration =>
       match declaration with
       | VariableDeclarator (Identifier name _ _) _ _ => promote name symbols
       | _ => symbols
       end)
    declarations symbols.

Definition symbols_FunctionDeclaration : handler (list SymbolInfo.t) :=
  fun n symbols =>
    match n with
    | Function_ kind (Some name) params returnType async generator _ loc =>
        let* signature :=
          call_this this "generateFunctionSignature"
            (generateFunctionSignature kind (Some name) params returnType
               async generator) in
        Ok (symbols ++ [mk_symbol name Kind.function loc (Some signature)])
    | _ => Ok symbols
    end.

Definition symbols_VariableDeclaration : handler (list SymbolInfo.t) :=
  fun n symbols =>
    match n with
    | VariableDeclaration declarations =>
        Ok (fold_left
              (fun symbols declaration =>
                 match declaration with
                 | VariableDeclarator (Identifier name _ _) _ loc =>
                     symbols ++ [mk_symbol name Kind.variable loc None]
                 | _ => symbols
                 end)
              declarations symbols)
    | _ => Ok symbols
    end.

Definition symbols_ClassDeclaration : handler (list SymbolInfo.t) :=
  fun n symbols =>
    match n with
    | ClassDeclaration id _ body loc =>
        let symbols :=
          match id with
          | Some name => symbols ++ [mk_symbol name Kind.class loc None]
          | None => symbols
          end in
        forEach
          (fun member symbols =>
             match member with
             | ClassMethod (Identifier name o a) false params returnType
                 async generator _ mloc =>
                 let* signature :=
                   call_this this "generateMethodSignature"
                     (generateMethodSignature (Identifier name o a) params
                        returnType async generator) in
                 Ok (symbols ++
                       [mk_symbol name Kind.function mloc (Some signature)])
             | _ => Ok symbols
             end)
          body symbols
    | _ => Ok symbols
    end.

Definition symbols_TSInterfaceDeclaration : handler (list SymbolInfo.t) :=
  fun n symbols =>
    match n with
    | TSInterfaceDeclaration name loc =>
        Ok (symbols ++ [mk_symbol name Kind.interface loc None])
    | _ => Ok symbols
    end.

Definition symbols_TSTypeAliasDeclaration : handler (list SymbolInfo.t) :=
  fun n symbols =>
    match n with
    | TSTypeAliasDeclaration name loc =>
        Ok (symbols ++ [mk_symbol name Kind.type loc None])
    | _ => Ok symbols
    end.

Definition symbols_ExportNamedDeclaration : handler (list SymbolInfo.t) :=
  fun n symbols =>
    match n with
    | ExportNamedDeclaration declaration specifiers _ =>
        let symbols :=
          match declaration with
          | Some (Function_ FunctionDeclaration (Some name) _ _ _ _ _ _) =>
              promote name symbols
          | Some (ClassDeclaration (Some name) _ _ _) => promote name symbols
          | Some (VariableDeclaration declarations) =>
              promote_declarators declarations symbols
          | _ => symbols
          end in
        Ok (fold_left
              (fun symbols specifier =>
                 match specifier with
                 | ExportSpecifier local _ _ => promote local symbols
                 | _ => symbols
                 end)
              specifiers symbols)
    | _ => Ok symbols
    end.

Definition symbols_ExportDefaultDeclaration : handler (list SymbolInfo.t) :=
  fun n symbols =>
    match n with
    | ExportDefaultDeclaration
        (Function_ FunctionDeclaration (Some name) _ _ _ _ _ _) _ =>
        Ok (promote name symbols)
    | ExportDefaultDeclaration (ClassDeclaration (Some name) _ _ _) _ =>
        Ok (promote name symbols)
    | _ => Ok symbols
    end.

(** The [visitors] object of [extractSymbols], in source order. *)
Definition symbols_visitors : list (string * handler (list SymbolInfo.t)) :=
  [ ("FunctionDeclaration", symbols_FunctionDeclaration);
    ("VariableDeclaration", symbols_VariableDeclaration);
    ("ClassDeclaration", symbols_ClassDeclaration);
    ("TSInterfaceDeclaration", symbols_TSInterfaceDeclaration);
    ("TSTypeAliasDeclaration", symbols_TSTypeAliasDeclaration);
    ("ExportNamedDeclaration", symbols_ExportNamedDeclaration);
    ("ExportDefaultDeclaration", symbols_ExportDefaultDeclaration) ].

(** [extractSymbols(ast, filePath)] *)
Definition extractSymbols (ast : node) : outcome (list SymbolInfo.t) :=
  traverse_default symbols_visitors ast [].
End ExtractSymbols.

Section ExtractFunctionSignatures.
Variable this : this_binding.
Variable filePath : string.

(** The callback of [params.map(...)] in [extractFunctionSignatures]. *)
Definition signature_parameter (param : node) : outcome Parameter_.t :=
  let name :=
    match param with Identifier name _ _ => name | _ => "unknown" end in
  let* type :=
    call_this this "extractTypeAnnotation" (extractTypeAnnotation param) in
  let optional :=
    match param with Identifier _ optional _ => optional | _ => false end in
  Ok {| Parameter_.name := name; Parameter_.type := type;
        Parameter_.optional := optional |}.

Definition push_signature (name : string) (params : list node)
    (returnType : option annotation) (async generator : bool)
    (loc : option SourceLocation) (signatures : list FunctionSignature.t)
  : outcome (list FunctionSignature.t) :=
  let* parameters := map_outcome signature_parameter params in
  let* returnType :=
    call_this this "extractReturnType" (extractReturnType returnType) in
  Ok (signatures ++
        [{| FunctionSignature.name := name;
            FunctionSignature.parameters := parameters;
            FunctionSignature.returnType := returnType;
            FunctionSignature.filePath := filePath;
            FunctionSignature.line := loc_line loc;
            FunctionSignature.isAsync := async;
            FunctionSignature.isGenerator := generator |}]).

Definition signatures_FunctionDeclaration
  : handler (list FunctionSignature.t) :=
  fun n signatures =>
    match n with
    | Function_ _ (Some name) params returnType async generator _ loc =>
        push_signature name params returnType async generator loc signatures
    | _ => Ok signatures
    end.

Definition signatures_ClassMethod : handler (list FunctionSignature.t) :=
  fun n signatures =>
    match n with
    | ClassMethod (Identifier name _ _) _ params returnType async generator
        _ loc =>
        push_signature name params returnType async generator loc signatures
    | _ => Ok signatures
    end.

(** The [visitors] object of [extractFunctionSignatures]. *)
Definition signatures_visitors
  : list (string * handler (list FunctionSignature.t)) :=
  [ ("FunctionDeclaration", signatures_FunctionDeclaration);
    ("ClassMethod", signatures_ClassMethod) ].

(** [extractFunctionSignatures(ast, filePath)] *)
Definition extractFunctionSignatures (ast : node)
  : outcome (list FunctionSignature.t) :=
  traverse_default signatures_visitors ast [].
End ExtractFunctionSignatures.

(** [clearCache()] *)
Definition clearCache (c : gmap string node) : gmap string node := ∅.

(** [getCacheSize()] *)
Definition getCacheSize (c : gmap string node) : nat := size c.

End ASTAnalyzer.

(** ** ImportTracker (import-tracker.ts) *)

Module ImportResolutionResult.
Record t : Type := {
  resolvedPath : option string;
  exists_ : bool;
  alternatives : option (list string);
  error : option string
}.
End ImportResolutionResult.

Module ImportTracker.

(** The fields of an [ImportTracker] instance. *)
Record state : Type := {
  analyzer : gmap string node;
  exportsCache : gmap string (list ExportInfo.t);
  importsCache : gmap string (list ImportInfo.t);
  workspaceRoot : string
}.

Definition set_analyzer (st : state) (c : gmap string node) : state :=
  {| analyzer := c; exportsCache := exportsCache st;
     importsCache := importsCache st; workspaceRoot := workspaceRoot st |}.

Definition set_importsCache (st : state) (m : gmap string (list ImportInfo.t))
  : state :=
  {| analyzer := analyzer st; exportsCache := exportsCache st;
     importsCache := m; workspaceRoot := workspaceRoot st |}.

Definition set_exportsCache (st : state) (m : gmap string (list ExportInfo.t))
  : state :=
  {| analyzer := analyzer st; exportsCache := m;
     importsCache := importsCache st; workspaceRoot := workspaceRoot st |}.

(** [new ImportTracker(workspaceRoot)] *)
Definition new (workspaceRoot : string) : state :=
  {| analyzer := ∅; exportsCache := ∅; importsCache := ∅;
     workspaceRoot := workspaceRoot |}.

(** A traversal function: visitor object, tree, initial captured state. *)
Definition traversal : Type :=
  forall S : Type, list (string * handler S) -> node -> S -> outcome S.

(** The traversal [ASTAnalyzer] itself uses. *)
Definition babel_traverse : traversal := fun S => @traverse_default S.

(** [this.analyzer["traverse"]]: the property read on the [ASTAnalyzer]
    instance.  The class declares [cache], [parse], [parseFile],
    [extractSymbols], [extractFunctionSignatures], [findReferences],
    [generateFunctionSignature], [generateMethodSignature],
    [extractTypeAnnotation], [extractReturnType], [tsTypeToString],
    [clearCache] and [getCacheSize]; it declares no [traverse], so the read
    yields [undefined]. *)
Definition analyzer_traverse : option traversal := None.

(** Calling the value read from [this.analyzer["traverse"]]: calling
    [undefined] throws a TypeError (message text as V8 prints it). *)
Definition call_traverse {S} (member : option traversal)
    (visitors : list (string * handler S)) (ast : node) (s : S) : outcome S :=
  match member with
  | Some f => f S visitors ast s
  | None =>
      Throw (OtherError "TypeError" "this.analyzer.traverse is not a function")
  end.

(** *** extractImports *)

Definition mk_import (source : string) (specifiers : list string)
    (isTypeOnly : bool) (loc : option SourceLocation) : ImportInfo.t :=
  {| ImportInfo.path := source; ImportInfo.source := source;
     ImportInfo.specifiers := specifiers; ImportInfo.isTypeOnly := isTypeOnly;
     ImportInfo.line := loc_line loc |}.

(** The callback of [path.node.specifiers.map(...)]. *)
Definition import_specifier_text (spec : node) : string :=
  match spec with
  | ImportDefaultSpecifier local => local
  | ImportNamespaceSpecifier local => "* as " +:+ local
  | ImportSpecifier imported local =>
      match export_name_name imported with
      | Some name =>
          if String.eqb name local then name
          else name +:+ " as " +:+ local
      | None => template_value None +:+ " as " +:+ local
      end
  | _ => ""
  end.

Definition imports_ImportDeclaration : handler (list ImportInfo.t) :=
  fun n imports =>
    match n with
    | ImportDeclaration specifiers source importKind loc =>
        let specifiers :=
          List.filter (fun s => negb (String.eqb s ""))
            (map import_specifier_text specifiers) in
        let isTypeOnly :=
          match importKind with
          | Some k => String.eqb k "type"
          | None => false
          end in
        Ok (imports ++ [mk_import source specifiers isTypeOnly loc])
    | _ => Ok imports
    end.

(** The body shared by the two [CallExpression] callbacks: the callee is
    the identifier [callee_name], there is a first argument, and it is a
    string literal. *)
Definition imports_call (callee_name marker : string)
  : handler (list ImportInfo.t) :=
  fun n imports =>
    match n with
    | CallExpression (Identifier name _ _) (StringLiteral value :: _) loc =>
        if String.eqb name callee_name
        then Ok (imports ++ [mk_import value [marker] false loc])
        else Ok imports
    | _ => Ok imports
    end.

(** The visitor object of [extractImports], in source order; the key
    [CallExpression] is written twice. *)
Definition imports_visitors : list (string * handler (list ImportInfo.t)) :=
  [ ("ImportDeclaration", imports_ImportDeclaration);
    ("CallExpression", imports_call "import" "dynamic");
    ("CallExpression", imports_call "require" "require") ].

(** The catch branch of [extractImports]. *)
Definition extractImports_catch {A} (filePath : string) (error : JsError)
  : outcome A :=
  if instanceof_AnalysisError error then Throw error
  else Throw (AnalysisError
                ("Failed to extract imports: " +:+ error_message error)
                (Some filePath)).

Section WithTraversal.
(** The value read from [this.analyzer["traverse"]]. *)
Variable member : option traversal.
Variable h : Host.

(** The [try] block of [extractImports] up to the traversal. *)
Definition extractImports_try (st : state) (filePath : string)
  : outcome (list ImportInfo.t) * state :=
  let '(parsed, c) := ASTAnalyzer.parseFile h (analyzer st) filePath in
  (let* ast := parsed in call_traverse member imports_visitors ast [],
   set_analyzer st c).

Definition extractImports_with (st : state) (filePath : string)
  : outcome (list ImportInfo.t) * state :=
  match importsCache st !! filePath with
  | Some imports => (Ok imports, st)
  | None =>
      let '(body, st) := extractImports_try st filePath in
      match try_catch body (extractImports_catch filePath) with
      | Ok imports =>
          (Ok imports,
           set_importsCache st (<[filePath := imports]> (importsCache st)))
      | Throw error => (Throw error, st)
      end
  end.
End WithTraversal.

(** [extractImports(filePath)] *)
Definition extractImports (h : Host) (st : state) (filePath : string)
  : outcome (list ImportInfo.t) * state :=
  extractImports_with analyzer_traverse h st filePath.

(** *** extractExports *)

Definition mk_export (filePath : string) (name : option string) (type : Kind.t)
    (loc : option SourceLocation) (signature : option string) : ExportInfo.t :=
  {| ExportInfo.name := name; ExportInfo.type := type;
     ExportInfo.filePath := filePath; ExportInfo.line := loc_line loc;
     ExportInfo.signature := signature |}.

Section ExtractExportsVisitors.
Variable this : this_binding.
Variable filePath : string.

(** [this.analyzer["generateFunctionSignature"](declaration)] inside a
    callback. *)
Definition export_signature (kind : function_kind) (id : option string)
    (params : list node) (returnType : option annotation)
    (async generator : bool) : outcome string :=
  call_this this "analyzer"
    (ASTAnalyzer.generateFunctionSignature kind id params returnType
       async generator).

Definition exports_ExportNamedDeclaration : handler (list ExportInfo.t) :=
  fun n exports =>
    match n with
    | ExportNamedDeclaration declaration specifiers _ =>
        let* exports :=
          match declaration with
          | Some (Function_ FunctionDeclaration (Some name) params returnType
                    async generator _ loc) =>
              let* signature :=
                export_signature FunctionDeclaration (Some name) params
                  returnType async generator in
              Ok (exports ++
                    [mk_export filePath (Some name) Kind.function loc
                       (Some signature)])
          | Some (ClassDeclaration (Some name) _ _ loc) =>
              Ok (exports ++
                    [mk_export filePath (Some name) Kind.class loc None])
          | Some (VariableDeclaration declarations) =>
              Ok (fold_left
                    (fun exports declaration =>
                       match declaration with
                       | VariableDeclarator (Identifier name _ _) _ loc =>
                           exports ++
                             [mk_export filePath (Some name) Kind.variable
                                loc None]
                       | _ => exports
                       end)
                    declarations exports)
          | Some (TSTypeAliasDeclaration name loc) =>
              Ok (exports ++
                    [mk_export filePath (Some name) Kind.type loc None])
          | Some (TSInterfaceDeclaration name loc) =>
              Ok (exports ++
                    [mk_export filePath (Some name) Kind.interface loc None])
          | _ => Ok exports
          end in
        Ok (fold_left
              (fun exports specifier =>
                 match specifier with
                 | ExportSpecifier _ exported loc =>
                     exports ++
                       [mk_export filePath (export_name_name exported)
                          Kind.variable loc None]
                 | _ => exports
                 end)
              specifiers exports)
    | _ => Ok exports
    end.

Definition exports_ExportDefaultDeclaration : handler (list ExportInfo.t) :=
  fun n exports =>
    match n with
    | ExportDefaultDeclaration
        (Function_ FunctionDeclaration (Some name) params returnType async
           generator _ loc) _ =>
        let* signature :=
          export_signature FunctionDeclaration (Some name) params returnType
            async generator in
        Ok (exports ++
              [mk_export filePath (Some "default") Kind.function loc
                 (Some signature)])
    | ExportDefaultDeclaration (ClassDeclaration (Some _) _ _ loc) _ =>
        Ok (exports ++
              [mk_export filePath (Some "default") Kind.class loc None])
    | ExportDefaultDeclaration (Identifier _ _ _) loc =>
        Ok (exports ++
              [mk_export filePath (Some "default") Kind.variable loc None])
    | _ => Ok exports
    end.

Definition exports_ExportAllDeclaration : handler (list ExportInfo.t) :=
  fun n exports =>
    match n with
    | ExportAllDeclaration source loc =>
        Ok (exports ++ [mk_export source (Some "*") Kind.variable loc None])
    | _ => Ok exports
    end.

(** The visitor object of [extractExports], in source order. *)
Definition exports_visitors : list (string * handler (list ExportInfo.t)) :=
  [ ("ExportNamedDeclaration", exports_ExportNamedDeclaration);
    ("ExportDefaultDeclaration", exports_ExportDefaultDeclaration);
    ("ExportAllDeclaration", exports_ExportAllDeclaration) ].
End ExtractExportsVisitors.

(** The catch branch of [extractExports]. *)
Definition extractExports_catch {A} (filePath : string) (error : JsError)
  : outcome A :=
  if instanceof_AnalysisError error then Throw error
  else Throw (AnalysisError
                ("Failed to extract exports: " +:+ error_message error)
                (Some filePath)).

(** The [try] block of [extractExports] up to the traversal. *)
Definition extractExports_try (member : option traversal) (h : Host)
    (st : state) (filePath : string) : outcome (list ExportInfo.t) * state :=
  let '(parsed, c) := ASTAnalyzer.parseFile h (analyzer st) filePath in
  (let* ast := parsed in
   call_traverse member (exports_visitors (visitor_this h) filePath) ast [],
   set_analyzer st c).

Definition extractExports_with (member : option traversal) (h : Host)
    (st : state) (filePath : string) : outcome (list ExportInfo.t) * state :=
  match exportsCache st !! filePath with
  | Some exports => (Ok exports, st)
  | None =>
      let '(body, st) := extractExports_try member h st filePath in
      match try_catch body (extractExports_catch filePath) with
      | Ok exports =>
          (Ok exports,
           set_exportsCache st (<[filePath := exports]> (exportsCache st)))
      | Throw error => (Throw error, st)
      end
  end.

(** [extractExports(filePath)] *)
Definition extractExports (h : Host) (st : state) (filePath : string)
  : outcome (list ExportInfo.t) * state :=
  extractExports_with analyzer_traverse h st filePath.

(** *** resolveImportPath *)

Definition builtInModules : list string :=
  [ "fs"; "path"; "http"; "https"; "url"; "querystring"; "util"; "events";
    "stream"; "buffer"; "crypto"; "os"; "cluster"; "child_process"; "net";
    "dgram"; "dns"; "tls"; "zlib"; "readline"; "vm"; "process"; "assert";
    "timers"; "async_hooks"; "worker_threads"; "console" ].

Definition extensions : list string :=
  [ ".ts"; ".tsx"; ".js"; ".jsx"; ".mts"; ".mjs"; ".cjs"; "" ].

(** [findAlternativePaths(targetPath, searchDir)]: its two locals are
    computed and dropped, the array it returns is never pushed to. *)
Definition findAlternativePaths (targetPath searchDir : string) : list string :=
  [].

(** [for (const ext of exts) { const p = candidate(ext);
       if (existsSync(p)) { foundPath = p; break; } }]
    on the variable [foundPath]; [probed] is the list of paths handed to
    [existsSync] so far, oldest first. *)
Fixpoint probe_loop (h : Host) (candidate : string -> string)
    (exts : list string) (foundPath : option string) (probed : list string)
  : option string * list string :=
  match exts with
  | [] => (foundPath, probed)
  | ext :: rest =>
      let p := candidate ext in
      if existsSync h p then (Some p, probed ++ [p])
      else probe_loop h candidate rest foundPath (probed ++ [p])
  end.

Definition resolved_as (p : string) : ImportResolutionResult.t :=
  {| ImportResolutionResult.resolvedPath := Some p;
     ImportResolutionResult.exists_ := true;
     ImportResolutionResult.alternatives := None;
     ImportResolutionResult.error := None |}.

(** [resolveImportPath(importPath, fromFile)], with the paths it probes on
    disk, in order. *)
Definition resolveImportPath (h : Host) (importPath fromFile : string)
  : ImportResolutionResult.t * list string :=
  if Js.includes builtInModules importPath || startsWith importPath "node:"
  then (resolved_as importPath, [])
  else if negb (startsWith importPath ".") && negb (startsWith importPath "/")
  then (resolved_as importPath, [])
  else
    let fromDir := path_dirname h fromFile in
    let resolvedPath := path_resolve h fromDir importPath in
    let '(foundPath, probed) :=
      probe_loop h (fun ext => resolvedPath +:+ ext) extensions None [] in
    let '(foundPath, probed) :=
      if negb (truthy foundPath)
      then probe_loop h
             (fun ext => path_join h resolvedPath ("index" +:+ ext))
             extensions foundPath probed
      else (foundPath, probed) in
    let '(foundPath, probed) :=
      if negb (truthy foundPath)
      then
        let packageJsonPath := path_join h resolvedPath "package.json" in
        if existsSync h packageJsonPath
        then (Some resolvedPath, probed ++ [packageJsonPath])
        else (foundPath, probed ++ [packageJsonPath])
      else (foundPath, probed) in
    if truthy foundPath
    then
      ({| ImportResolutionResult.resolvedPath := foundPath;
          ImportResolutionResult.exists_ := true;
          ImportResolutionResult.alternatives := None;
          ImportResolutionResult.error := None |}, probed)
    else
      let alternatives := findAlternativePaths resolvedPath fromDir in
      ({| ImportResolutionResult.resolvedPath := None;
          ImportResolutionResult.exists_ := false;
          ImportResolutionResult.alternatives := Some alternatives;
          ImportResolutionResult.error :=
            Some ("Import path '" +:+ importPath +:+
                  "' could not be resolved from " +:+ fromFile) |}, probed).

(** *** buildDependencyGraph and findImporters *)

Section Graph.
Variable member : option traversal.
Variable h : Host.

(** The inner loop of [buildDependencyGraph] over the imports of
    [filePath]. *)
Definition dependencies_of (filePath : string) (imports : list ImportInfo.t)
  : gset string :=
  fold_left
    (fun (dependencies : gset string) imp =>
       if negb (startsWith (ImportInfo.path imp) ".")
          && negb (startsWith (ImportInfo.path imp) "/")
       then dependencies
       else
         let resolved :=
           fst (resolveImportPath h (ImportInfo.path imp) filePath) in
         match ImportResolutionResult.resolvedPath resolved with
         | Some p =>
             if ImportResolutionResult.exists_ resolved
                && truthy (Some p)
             then {[ p ]} ∪ dependencies
             else dependencies
         | None => dependencies
         end)
    imports ∅.

Fixpoint buildDependencyGraph_loop (filePaths : list string)
    (graph : gmap string (gset string)) (st : state)
  : outcome (gmap string (gset string)) * state :=
  match filePaths with
  | [] => (Ok graph, st)
  | filePath :: rest =>
      match extractImports_with member h st filePath with
      | (Ok imports, st) =>
          buildDependencyGraph_loop rest
            (<[filePath := dependencies_of filePath imports]> graph) st
      | (Throw error, st) => (Throw error, st)
      end
  end.

Definition buildDependencyGraph_with (st : state) (filePaths : list string)
  : outcome (gmap string (gset string)) * state :=
  buildDependencyGraph_loop filePaths ∅ st.

(** The inner loop of [findImporters]: does some import of [file] resolve
    to [filePath]? *)
Definition imports_target (filePath file : string)
    (imports : list ImportInfo.t) : bool :=
  existsb
    (fun imp =>
       match ImportResolutionResult.resolvedPath
               (fst (resolveImportPath h (ImportInfo.path imp) file)) with
       | Some p => String.eqb p filePath
       | None => false
       end)
    imports.

Fixpoint findImporters_loop (filePath : string) (allFiles : list string)
    (importers : list string) (st : state) : outcome (list string) * state :=
  match allFiles with
  | [] => (Ok importers, st)
  | file :: rest =>
      match extractImports_with member h st file with
      | (Ok imports, st) =>
          findImporters_loop filePath rest
            (if imports_target filePath file imports
             then importers ++ [file] else importers) st
      | (Throw error, st) => (Throw error, st)
      end
  end.

Definition findImporters_with (st : state) (filePath : string)
    (allFiles : list string) : outcome (list string) * state :=
  findImporters_loop filePath allFiles [] st.
End Graph.

(** [buildDependencyGraph(filePaths)] *)
Definition buildDependencyGraph (h : Host) (st : state)
    (filePaths : list string) : outcome (gmap string (gset string)) * state :=
  buildDependencyGraph_with analyzer_traverse h st filePaths.

(** [findImporters(filePath, allFiles)]; the [relativePath] it computes
    first is not used. *)
Definition findImporters (h : Host) (st : state) (filePath : string)
    (allFiles : list string) : outcome (list string) * state :=
  findImporters_with analyzer_traverse h st filePath allFiles.


(** *** exportExists, findExportingFile, getAllExports, getAllImports *)

(** [exports.some((exp) => exp.name === name)] *)
Definition exports_name (name : string) (exports : list ExportInfo.t) : bool :=
  existsb
    (fun exp =>
       match ExportInfo.name exp with
       | Some n => String.eqb n name
       | None => false
       end)
    exports.

Section Queries.
Variable member : option traversal.
Variable h : Host.

Definition exportExists_with (st : state) (filePath exportName : string)
  : outcome bool * state :=
  match extractExports_with member h st filePath with
  | (Ok exports, st) => (Ok (exports_name exportName exports), st)
  | (Throw error, st) => (Throw error, st)
  end.

(** The loop of [findExportingFile]; [None] is [null]. *)
Fixpoint findExportingFile_with (st : state) (symbolName : string)
    (searchPaths : list string) : outcome (option string) * state :=
  match searchPaths with
  | [] => (Ok None, st)
  | path :: rest =>
      match extractExports_with member h st path with
      | (Ok exports, st) =>
          if exports_name symbolName exports then (Ok (Some path), st)
          else findExportingFile_with st symbolName rest
      | (Throw error, st) => (Throw error, st)
      end
  end.

(** The loop of [getAllExports] on the map it fills. *)
Fixpoint getAllExports_loop (filePaths : list string)
    (allExports : gmap string (list ExportInfo.t)) (st : state)
  : gmap string (list ExportInfo.t) * state :=
  match filePaths with
  | [] => (allExports, st)
  | filePath :: rest =>
      match extractExports_with member h st filePath with
      | (Ok exports, st) =>
          getAllExports_loop rest
            (if Nat.ltb 0 (length exports)
             then <[filePath := exports]> allExports else allExports) st
      | (Throw _, st) => getAllExports_loop rest allExports st
      end
  end.

Definition getAllExports_with (st : state) (filePaths : list string)
  : gmap string (list ExportInfo.t) * state :=
  getAllExports_loop filePaths ∅ st.

(** The loop of [getAllImports] on the map it fills. *)
Fixpoint getAllImports_loop (filePaths : list string)
    (allImports : gmap string (list ImportInfo.t)) (st : state)
  : gmap string (list ImportInfo.t) * state :=
  match filePaths with
  | [] => (allImports, st)
  | filePath :: rest =>
      match extractImports_with member h st filePath with
      | (Ok imports, st) =>
          getAllImports_loop rest
            (if Nat.ltb 0 (length imports)
             then <[filePath := imports]> allImports else allImports) st
      | (Throw _, st) => getAllImports_loop rest allImports st
      end
  end.

Definition getAllImports_with (st : state) (filePaths : list string)
  : gmap string (list ImportInfo.t) * state :=
  getAllImports_loop filePaths ∅ st.
End Queries.

(** [exportExists(filePath, exportName)] *)
Definition exportExists (h : Host) (st : state) (filePath exportName : string)
  : outcome bool * state :=
  exportExists_with analyzer_traverse h st filePath exportName.

(** [findExportingFile(symbolName, searchPaths)] *)
Definition findExportingFile (h : Host) (st : state) (symbolName : string)
    (searchPaths : list string) : outcome (option string) * state :=
  findExportingFile_with analyzer_traverse h st symbolName searchPaths.

(** [getAllExports(filePaths)] *)
Definition getAllExports (h : Host) (st : state) (filePaths : list string)
  : gmap string (list ExportInfo.t) * state :=
  getAllExports_with analyzer_traverse h st filePaths.

(** [getAllImports(filePaths)] *)
Definition getAllImports (h : Host) (st : state) (filePaths : list string)
  : gmap string (list ImportInfo.t) * state :=
  getAllImports_with analyzer_traverse h st filePaths.

(** [clearCache()] *)
Definition clearCache (st : state) : state :=
  {| analyzer := ASTAnalyzer.clearCache (analyzer st); exportsCache := ∅;
     importsCache := ∅; workspaceRoot := workspaceRoot st |}.

End ImportTracker.

(** ** SignatureValidator (signature-validator.ts) *)

Module SignatureMatchResult.
Record t : Type := {
  valid : bool;
  expectedSignature : option string;
  actualSignature : string;
  error : option string;
  confidence : nat
}.
End SignatureMatchResult.

Module APIValidationResult.
Record t : Type := {
  valid : bool;
  errors : list string;
  warnings : list string;
  suggestions : list string
}.
End APIValidationResult.

(** A parameter definition of the API table: [{ required, type }]. *)
Module ParameterDefinition.
Record t : Type := {
  required : bool;
  type : option string
}.
End ParameterDefinition.

Module SignatureValidator.

(** The fields of a [SignatureValidator] instance. *)
Record state : Type := {
  analyzer : gmap string node;
  signatureCache : gmap string (list FunctionSignature.t)
}.

(** [new SignatureValidator()] *)
Definition new : state := {| analyzer := ∅; signatureCache := ∅ |}.

(** [getSignatures(filePath)] *)
Definition getSignatures (h : Host) (st : state) (filePath : string)
  : outcome (list FunctionSignature.t) * state :=
  match signatureCache st !! filePath with
  | Some signatures => (Ok signatures, st)
  | None =>
      let '(parsed, c) := ASTAnalyzer.parseFile h (analyzer st) filePath in
      let body :=
        let* ast := parsed in
        ASTAnalyzer.extractFunctionSignatures (visitor_this h) filePath ast in
      match body with
      | Ok signatures =>
          (Ok signatures,
           {| analyzer := c;
              signatureCache := <[filePath := signatures]> (signatureCache st) |})
      | Throw _ =>
          (Ok [], {| analyzer := c; signatureCache := signatureCache st |})
      end
  end.

(** [formatSignature(signature)] *)
Definition formatSignature (signature : FunctionSignature.t) : string :=
  let params :=
    Js.join ", "
      (map (fun p =>
              let name :=
                if Parameter_.optional p then Parameter_.name p +:+ "?"
                else Parameter_.name p in
              if truthy (Parameter_.type p)
              then name +:+ ": " +:+ template_value (Parameter_.type p)
              else name)
         (FunctionSignature.parameters signature)) in
  let sig := FunctionSignature.name signature in
  let sig := if FunctionSignature.isAsync signature then "async " +:+ sig else sig in
  let sig := sig +:+ "(" +:+ params +:+ ")" in
  if truthy (FunctionSignature.returnType signature)
  then sig +:+ ": " +:+ template_value (FunctionSignature.returnType signature)
  else sig.

(** [`${functionName}(${args.join(", ")})`] *)
Definition actual_signature (functionName : string) (args : list string)
  : string :=
  functionName +:+ "(" +:+ Js.join ", " args +:+ ")".

(** The statements of the [try] block of [validateFunctionCall] that follow
    the call of [getSignatures]. *)
Definition check_call (functionName : string) (args : list string)
    (filePath : string) (signatures : list FunctionSignature.t)
  : SignatureMatchResult.t :=
  match Js.find (fun sig => String.eqb (FunctionSignature.name sig) functionName)
          signatures with
  | None =>
      {| SignatureMatchResult.valid := false;
         SignatureMatchResult.expectedSignature := None;
         SignatureMatchResult.actualSignature :=
           actual_signature functionName args;
         SignatureMatchResult.error :=
           Some ("Function '" +:+ functionName +:+ "' not found in " +:+ filePath);
         SignatureMatchResult.confidence := 0 |}
  | Some matchingSignature =>
      let expectedArgs := FunctionSignature.parameters matchingSignature in
      let actualArgsCount := length args in
      let expectedMinArgs :=
        length (List.filter (fun p => negb (Parameter_.optional p)) expectedArgs) in
      let expectedMaxArgs := length expectedArgs in
      if Nat.ltb actualArgsCount expectedMinArgs
      then
        {| SignatureMatchResult.valid := false;
           SignatureMatchResult.expectedSignature :=
             Some (formatSignature matchingSignature);
           SignatureMatchResult.actualSignature :=
             actual_signature functionName args;
           SignatureMatchResult.error :=
             Some ("Expected at least " +:+ number_to_string expectedMinArgs
                   +:+ " arguments, got " +:+ number_to_string actualArgsCount);
           SignatureMatchResult.confidence := 1 |}
      else if Nat.ltb expectedMaxArgs actualArgsCount
      then
        {| SignatureMatchResult.valid := false;
           SignatureMatchResult.expectedSignature :=
             Some (formatSignature matchingSignature);
           SignatureMatchResult.actualSignature :=
             actual_signature functionName args;
           SignatureMatchResult.error :=
             Some ("Expected at most " +:+ number_to_string expectedMaxArgs
                   +:+ " arguments, got " +:+ number_to_string actualArgsCount);
           SignatureMatchResult.confidence := 1 |}
      else
        {| SignatureMatchResult.valid := true;
           SignatureMatchResult.expectedSignature :=
             Some (formatSignature matchingSignature);
           SignatureMatchResult.actualSignature :=
             actual_signature functionName args;
           SignatureMatchResult.error := None;
           SignatureMatchResult.confidence := 1 |}
  end.

(** The catch branch of [validateFunctionCall]. *)
Definition validateFunctionCall_catch (functionName : string)
    (args : list string) (error : JsError) : outcome SignatureMatchResult.t :=
  Ok {| SignatureMatchResult.valid := false;
        SignatureMatchResult.expectedSignature := None;
        SignatureMatchResult.actualSignature :=
          actual_signature functionName args;
        SignatureMatchResult.error :=
          Some ("Failed to validate: " +:+ error_message error);
        SignatureMatchResult.confidence := 0 |}.

(** [validateFunctionCall(functionName, args, filePath?)] *)
Definition validateFunctionCall (h : Host) (st : state) (functionName : string)
    (args : list string) (filePath : option string)
  : outcome SignatureMatchResult.t * state :=
  match filePath with
  | Some path =>
      if truthy filePath
      then
        let '(signatures, st) := getSignatures h st path in
        (try_catch
           (let* signatures := signatures in
            Ok (check_call functionName args path signatures))
           (validateFunctionCall_catch functionName args), st)
      else
        (Ok {| SignatureMatchResult.valid := false;
               SignatureMatchResult.expectedSignature := None;
               SignatureMatchResult.actualSignature :=
                 actual_signature functionName args;
               SignatureMatchResult.error :=
                 Some "No file path provided for signature lookup";
               SignatureMatchResult.confidence := 0 |}, st)
  | None =>
      (Ok {| SignatureMatchResult.valid := false;
             SignatureMatchResult.expectedSignature := None;
             SignatureMatchResult.actualSignature :=
               actual_signature functionName args;
             SignatureMatchResult.error :=
               Some "No file path provided for signature lookup";
             SignatureMatchResult.confidence := 0 |}, st)
  end.


(** [getAllSignatures(filePath)] *)
Definition getAllSignatures (h : Host) (st : state) (filePath : string)
  : outcome (list FunctionSignature.t) * state :=
  getSignatures h st filePath.

(** [findSignature(filePath, name)]; [None] is [undefined]. *)
Definition findSignature (h : Host) (st : state) (filePath name : string)
  : outcome (option FunctionSignature.t) * state :=
  let '(signatures, st) := getSignatures h st filePath in
  (let* signatures := signatures in
   Ok (Js.find (fun sig => String.eqb (FunctionSignature.name sig) name)
         signatures), st).

(** [clearCache()] *)
Definition clearCache (st : state) : state :=
  {| analyzer := ASTAnalyzer.clearCache (analyzer st); signatureCache := ∅ |}.

(** *** validateAPIUsage *)

Definition parameter (required : bool) (type : string)
  : ParameterDefinition.t :=
  {| ParameterDefinition.required := required;
     ParameterDefinition.type := Some type |}.

(** [getCommonAPIs()]: library, then API, then the [parameters] object of
    its definition, each in the order the source writes it. *)
Definition getCommonAPIs
  : list (string * list (string * list (string * ParameterDefinition.t))) :=
  [ ("fs",
     [ ("readFile",
        [ ("path", parameter true "string | Buffer | URL");
          ("options", parameter false "Object");
          ("callback", parameter true "Function") ]);
       ("writeFile",
        [ ("path", parameter true "string | Buffer | URL");
          ("data", parameter true "string | Buffer");
          ("options", parameter false "Object");
          ("callback", parameter true "Function") ]);
       ("readFileSync",
        [ ("path", parameter true "string | Buffer | URL");
          ("options", parameter false "Object") ]);
       ("writeFileSync",
        [ ("path", parameter true "string | Buffer | URL");
          ("data", parameter true "string | Buffer");
          ("options", parameter false "Object") ]) ]);
    ("path",
     [ ("join", [ ("paths", parameter true "string[]") ]);
       ("resolve", [ ("paths", parameter true "string[]") ]);
       ("dirname", [ ("path", parameter true "string") ]) ]);
    ("JSON",
     [ ("parse",
        [ ("text", parameter true "string");
          ("reviver", parameter false "Function") ]);
       ("stringify",
        [ ("value", parameter true "any");
          ("replacer", parameter false "Function | Array");
          ("space", parameter false "string | number") ]) ]);
    ("fetch",
     [ ("fetch",
        [ ("url", parameter true "string | Request");
          ("options", parameter false "RequestInit") ]) ]) ].

(** The properties every plain object inherits from [Object.prototype];
    all of them hold truthy values (functions, and the prototype object
    under [__proto__]). *)
Definition object_prototype_properties : list string :=
  [ "constructor"; "hasOwnProperty"; "isPrototypeOf"; "propertyIsEnumerable";
    "toLocaleString"; "toString"; "valueOf"; "__proto__";
    "__defineGetter__"; "__defineSetter__"; "__lookupGetter__";
    "__lookupSetter__" ].

(** [name in object] for a plain object with the own keys [keys]. *)
Definition has_property (keys : list string) (name : string) : bool :=
  Js.includes keys name || Js.includes object_prototype_properties name.

(** [validateAPIUsage(library, api, parameters)].  Of the [parameters]
    object the function reads only which keys it has: [parameters] is the
    list [Object.keys(parameters)] of a plain object. *)
Definition validateAPIUsage (library api : string) (parameters : list string)
  : APIValidationResult.t :=
  match object_get getCommonAPIs library with
  | None =>
      {| APIValidationResult.valid := true;
         APIValidationResult.errors := [];
         APIValidationResult.warnings :=
           ["No API definitions available for library '" +:+ library +:+ "'"];
         APIValidationResult.suggestions := [] |}
  | Some libraryAPIs =>
      match object_get libraryAPIs api with
      | None =>
          {| APIValidationResult.valid := true;
             APIValidationResult.errors := [];
             APIValidationResult.warnings :=
               ["No definition available for '" +:+ library +:+ "." +:+ api
                +:+ "'"];
             APIValidationResult.suggestions := [] |}
      | Some apiDefinition =>
          let errors :=
            fold_left
              (fun errors entry =>
                 let '(paramName, paramDef) := entry in
                 if ParameterDefinition.required paramDef
                    && negb (has_property parameters paramName)
                 then errors ++
                        ["Missing required parameter '" +:+ paramName +:+
                         "' for " +:+ library +:+ "." +:+ api]
                 else errors)
              apiDefinition [] in
          let warnings :=
            fold_left
              (fun warnings paramName =>
                 if negb (has_property (map fst apiDefinition) paramName)
                 then warnings ++
                        ["Unknown parameter '" +:+ paramName +:+ "' for "
                         +:+ library +:+ "." +:+ api]
                 else warnings)
              parameters [] in
          {| APIValidationResult.valid := Nat.eqb (length errors) 0;
             APIValidationResult.errors := errors;
             APIValidationResult.warnings := warnings;
             APIValidationResult.suggestions := [] |}
      end
  end.

(** *** validateCodeSignatures *)

(** The callback of [validateCodeSignatures] for [CallExpression], on the
    results pushed so far and the validator's fields. *)
Definition code_CallExpression (h : Host) (filePath : option string)
  : handler (list SignatureMatchResult.t * state) :=
  fun n acc =>
    match n with
    | CallExpression callee arguments _ =>
        let functionName :=
          match callee with
          | Identifier name _ _ => Some name
          | MemberExpression _ (Identifier name _ _) => Some name
          | _ => None
          end in
        match functionName with
        | Some name =>
            if truthy (Some name)
            then
              let '(results, st) := acc in
              let args := map (fun _ => "unknown") arguments in
              let* call :=
                call_this (visitor_this h) "validateFunctionCall"
                  (validateFunctionCall h st name args filePath) in
              let '(result, st) := call in
              let* result := result in
              if negb (SignatureMatchResult.valid result)
                 && Nat.ltb 0 (SignatureMatchResult.confidence result)
              then Ok (results ++ [result], st)
              else Ok (results, st)
            else Ok acc
        | None => Ok acc
        end
    | _ => Ok acc
    end.

(** [filePath || "inline"] *)
Definition snippet_key (filePath : option string) : string :=
  match filePath with
  | Some path => if truthy filePath then path else "inline"
  | None => "inline"
  end.

(** [validateCodeSignatures(code, filePath?)], over the value read from
    [this.analyzer["traverse"]].  A callback can throw only at its call
    through [this], before it pushes, and that call throws on the first call
    expression that has a name: when the traversal throws, no result has
    been pushed, and the fields of the validator are those left by
    [parse]. *)
Definition validateCodeSignatures_with (member : option ImportTracker.traversal)
    (h : Host) (st : state) (code : string) (filePath : option string)
  : list SignatureMatchResult.t * state :=
  let '(parsed, c) :=
    ASTAnalyzer.parse h (analyzer st) code (snippet_key filePath) in
  let st := {| analyzer := c; signatureCache := signatureCache st |} in
  match
    (let* ast := parsed in
     ImportTracker.call_traverse member
       [("CallExpression", code_CallExpression h filePath)] ast ([], st))
  with
  | Ok (results, st) => (results, st)
  | Throw _ => ([], st)
  end.

(** [validateCodeSignatures(code, filePath?)] *)
Definition validateCodeSignatures (h : Host) (st : state) (code : string)
    (filePath : option string) : list SignatureMatchResult.t * state :=
  validateCodeSignatures_with ImportTracker.analyzer_traverse h st code filePath.

End SignatureValidator.

(** ** ExportsMapResource: the caches of the resource (exports-map.ts) *)

Module ExportsMapResource.

(** The fields of an [ExportsMapResource] instance that [buildCaches]
    reads or writes. *)
Record state : Type := {
  importTracker : ImportTracker.state;
  exportsCache : gmap string (list ExportInfo.t);
  importsCache : gmap string (list ImportInfo.t);
  cacheTime : nat
}.

(** [new ExportsMapResource(config)] *)
Definition new (workspacePath : string) : state :=
  {| importTracker := ImportTracker.new workspacePath; exportsCache := ∅;
     importsCache := ∅; cacheTime := 0 |}.

Section BuildCaches.
Variable member : option ImportTracker.traversal.
Variable h : Host.

(** The body of the loop of [buildCaches] for one file: a [try] block
    whose [catch] goes on with the next file. *)
Definition buildCaches_step (st : state) (filePath : string) : state :=
  match
    ImportTracker.extractExports_with member h (importTracker st) filePath
  with
  | (Throw _, tracker) =>
      {| importTracker := tracker; exportsCache := exportsCache st;
         importsCache := importsCache st; cacheTime := cacheTime st |}
  | (Ok exports, tracker) =>
      let exportsCache' :=
        if Nat.ltb 0 (length exports)
        then <[filePath := exports]> (exportsCache st)
        else exportsCache st in
      match ImportTracker.extractImports_with member h tracker filePath with
      | (Throw _, tracker) =>
          {| importTracker := tracker; exportsCache := exportsCache';
             importsCache := importsCache st; cacheTime := cacheTime st |}
      | (Ok imports, tracker) =>
          {| importTracker := tracker; exportsCache := exportsCache';
             importsCache :=
               if Nat.ltb 0 (length imports)
               then <[filePath := imports]> (importsCache st)
               else importsCache st;
             cacheTime := cacheTime st |}
      end
  end.

(** [buildCaches()], where [files] is the list that [getSourceFiles()]
    resolves to and [now] the value of [Date.now()] after the loop. *)
Definition buildCaches_with (files : list string) (now : nat) (st : state)
  : state :=
  let st := fold_left buildCaches_step files st in
  {| importTracker := importTracker st; exportsCache := exportsCache st;
     importsCache := importsCache st; cacheTime := now |}.
End BuildCaches.

Definition buildCaches (h : Host) (files : list string) (now : nat)
    (st : state) : state :=
  buildCaches_with ImportTracker.analyzer_traverse h files now st.

End ExportsMapResource.

(** ** ConsistencyCheckTools: duplicate names (import-tracker.ts) *)

Module ConsistencyCheckTools.

(** The loop of [findDuplicates] on its two locals, the set [seen] and the
    array [duplicates]. *)
Fixpoint findDuplicates_loop (arr : list string) (seen : gset string)
    (duplicates : list string) : list string :=
  match arr with
  | [] => duplicates
  | item :: rest =>
      if bool_decide (item ∈ seen)
      then
        if negb (Js.includes duplicates item)
        then findDuplicates_loop rest seen (duplicates ++ [item])
        else findDuplicates_loop rest seen duplicates
      else findDuplicates_loop rest ({[ item ]} ∪ seen) duplicates
  end.

(** [findDuplicates(arr)] *)
Definition findDuplicates (arr : list string) : list string :=
  findDuplicates_loop arr ∅ [].

End ConsistencyCheckTools.

(** ** The resolver's probing order, as a specification *)

(** Probe the candidates in order; the first one that exists wins.  Returns
    the winner and the paths probed, oldest first. *)
Fixpoint first_existing (exists_on_disk : string -> bool)
    (candidates : list string) : option string * list string :=
  match candidates with
  | [] => (None, [])
  | p :: rest =>
      if exists_on_disk p then (Some p, [p])
      else
        let '(found, probed) := first_existing exists_on_disk rest in
        (found, p :: probed)
  end.

(** The candidates [resolveImportPath] probes for a path [resolved], in
    order: the path with each of the seven extensions, the path itself,
    [index] with each of the seven extensions inside it, and [index]. *)
Definition candidate_paths (h : Host) (resolved : string) : list string :=
  map (fun ext => resolved +:+ ext) ImportTracker.extensions ++
  map (fun ext => path_join h resolved ("index" +:+ ext))
    ImportTracker.extensions.

(** The result of a resolution that found nothing. *)
Definition unresolved (importPath fromFile : string)
  : ImportResolutionResult.t :=
  {| ImportResolutionResult.resolvedPath := None;
     ImportResolutionResult.exists_ := false;
     ImportResolutionResult.alternatives := Some [];
     ImportResolutionResult.error :=
       Some ("Import path '" +:+ importPath +:+
             "' could not be resolved from " +:+ fromFile) |}.

(** ** Sample hosts *)

Module Sample.

(** POSIX [dirname], [resolve] and [join] on absolute paths. *)
Fixpoint split_slash (s : string) : list string :=
  match s with
  | EmptyString => [""]
  | String a rest =>
      if Ascii.eqb a "/"%char then "" :: split_slash rest
      else
        match split_slash rest with
        | x :: xs => String a x :: xs
        | [] => [String a ""]
        end
  end.

Definition normalize_segments (segments : list string) : list string :=
  fold_left
    (fun acc seg =>
       if String.eqb seg "" || String.eqb seg "." then acc
       else if String.eqb seg ".." then removelast acc
       else acc ++ [seg])
    segments [].

Definition absolute (segments : list string) : string :=
  "/" +:+ String.concat "/" segments.

Definition dirname (p : string) : string :=
  absolute (removelast (normalize_segments (split_slash p))).

Definition resolve (dir p : string) : string :=
  if String.prefix "/" p
  then absolute (normalize_segments (split_slash p))
  else absolute (normalize_segments (split_slash (dir +:+ "/" +:+ p))).

Definition join (a b : string) : string :=
  absolute (normalize_segments (split_slash (a +:+ "/" +:+ b))).

Definition lookup {A} (table : list (string * A)) (key : string) : option A :=
  snd <$> List.find (fun kv => String.eqb (fst kv) key) table.

(** A host whose disk holds [files] (path, content) and the directories
    [dirs], and whose parser knows the trees of [sources] (text, tree) and
    rejects every other text. *)
Definition host (files : list (string * string)) (dirs : list string)
    (sources : list (string * node)) (this : this_binding) : Host :=
  {| readFileSync p :=
       match lookup files p with
       | Some content => inl content
       | None =>
           inr ("Error",
                "ENOENT: no such file or directory, open '" +:+ p +:+ "'")
       end;
     existsSync p :=
       match lookup files p with
       | Some _ => true
       | None => existsb (String.eqb p) dirs
       end;
     parser_parse code :=
       match lookup sources code with
       | Some ast => inl ast
       | None => inr ("SyntaxError", "Unexpected token (1:0)")
       end;
     path_dirname := dirname;
     path_resolve := resolve;
     path_join := join;
     visitor_this := this |}.

(** [s] between double quotes. *)
Definition quoted (s : string) : string :=
  let q := String (ascii_of_nat 34) EmptyString in q +:+ s +:+ q.

Definition at_ (line column : nat) : option SourceLocation :=
  Some {| start_line := line; start_column := column |}.

Definition number_annotation : option annotation :=
  Some (TSTypeAnnotation TSNumberKeyword).

(** [function add(a: number, b: number) {}] starting at [column] *)
Definition add_declaration (column : nat) : node :=
  Function_ FunctionDeclaration (Some "add")
    [Identifier "a" false number_annotation;
     Identifier "b" false number_annotation]
    None false false (BlockStatement []) (at_ 1 column).

(** [export function add(a: number, b: number) {}] *)
Definition export_add_text : string :=
  "export function add(a: number, b: number) {}".
Definition export_add : node :=
  File (Program [ExportNamedDeclaration (Some (add_declaration 7)) [] None]).

(** [function name() {}] at [line], [column] *)
Definition declaration (name : string) (line column : nat) : node :=
  Function_ FunctionDeclaration (Some name) [] None false false
    (BlockStatement []) (at_ line column).

(** [export function name() {}] *)
Definition inline_export (name : string) : node :=
  File (Program
          [ExportNamedDeclaration (Some (declaration name 1 7)) [] None]).

(** [function name() {}] then [export { name };] on the next line *)
Definition declaration_then_export (name : string) : node :=
  File (Program
          [declaration name 1 0;
           ExportNamedDeclaration None
             [ExportSpecifier name (NameIdentifier name) (at_ 2 9)] None]).

(** [export { name };] then [function name() {}] on the next line *)
Definition export_then_declaration (name : string) : node :=
  File (Program
          [ExportNamedDeclaration None
             [ExportSpecifier name (NameIdentifier name) (at_ 1 9)] None;
           declaration name 2 0]).

(** [function name() {}] alone *)
Definition plain_declaration (name : string) : node :=
  File (Program [declaration name 1 0]).

(** [function f(a, b?) {}] *)
Definition f_a_b_text : string := "function f(a, b?) {}".
Definition f_a_b : node :=
  File (Program
          [Function_ FunctionDeclaration (Some "f")
             [Identifier "a" false None; Identifier "b" true None]
             None false false (BlockStatement []) (at_ 1 0)]).

(** The file that holds the one statement [callee(m);], a call whose only
    argument is the string literal [m]. *)
Definition call_statement (callee : node) (m : string)
    (loc : option SourceLocation) : node :=
  File (Program
          [ExpressionStatement (CallExpression callee [StringLiteral m] loc)]).

(** [import("m");]: the callee of a dynamic import is an [Import] node *)
Definition dynamic_import_text : string :=
  "import(" +:+ quoted "m" +:+ ");".
Definition dynamic_import : node := call_statement Import "m" (at_ 1 0).

(** [require("m");] *)
Definition require_text : string :=
  "require(" +:+ quoted "m" +:+ ");".
Definition require_call : node :=
  call_statement (Identifier "require" false None) "m" (at_ 1 0).

(** [import { b } from "./b";] *)
Definition import_b_text : string :=
  "import { b } from " +:+ quoted "./b" +:+ ";".
Definition import_b : node :=
  File (Program
          [ImportDeclaration [ImportSpecifier (NameIdentifier "b") "b"] "./b"
             (Some "value") (at_ 1 0)]).

(** [export const b = 1;] *)
Definition export_b_text : string := "export const b = 1;".
Definition export_b : node :=
  File (Program
          [ExportNamedDeclaration
             (Some (VariableDeclaration
                      [VariableDeclarator (Identifier "b" false None)
                         (Some (OtherNode "NumericLiteral" [])) (at_ 1 13)]))
             [] None]).

Definition sources : list (string * node) :=
  [ (export_add_text, export_add);
    (f_a_b_text, f_a_b);
    (dynamic_import_text, dynamic_import);
    (require_text, require_call);
    (import_b_text, import_b);
    (export_b_text, export_b) ].

(** A workspace [/w]. *)
Definition files : list (string * string) :=
  [ ("/w/a.ts", import_b_text);
    ("/w/b.ts", export_b_text);
    ("/w/add.ts", export_add_text);
    ("/w/f.ts", f_a_b_text);
    ("/w/dyn.ts", dynamic_import_text);
    ("/w/req.ts", require_text);
    ("/w/bad.ts", "function (");
    ("/w/x", "");
    ("/w/x.ts", "") ].

Definition workspace (this : this_binding) : Host :=
  host files ["/w"] sources this.

End Sample.

(** ** The shape of a rendered function signature *)

(** A parameter without its type annotation. *)
Definition erase_annotation (param : node) : node :=
  match param with
  | Identifier name optional _ => Identifier name optional None
  | _ => param
  end.

(** The marker [generateFunctionSignature] puts in front of a signature. *)
Definition function_marker (kind : function_kind) (generator : bool) : string :=
  match kind with
  | ArrowFunctionExpression => ""
  | _ => if generator then "function* " else "function "
  end.

Definition async_marker (async : bool) : string :=
  if async then "async " else "".

(** The return type after the parameter list. *)
Definition return_suffix (returnType : option annotation) : string :=
  match ASTAnalyzer.extractReturnType returnType with
  | Some ty => if String.eqb ty "" then "" else ": " +:+ ty
  | None => ""
  end.

(** ** Definitions for the properties of the traversal and of types *)

(** The traversal of a list of siblings, left to right. *)
Fixpoint visit_all {S} (visitors : list (string * handler S)) (l : list node)
    (s : S) : outcome S :=
  match l with
  | [] => Ok s
  | x :: rest => let* s' := visit visitors x s in visit_all visitors rest s'
  end.

(** The children of a node, in the order the traversal enters them. *)
Definition children (n : node) : list node :=
  match n with
  | Identifier _ _ _ | StringLiteral _ | Import => []
  | CallExpression callee args _ => callee :: args
  | MemberExpression o p => [o; p]
  | Function_ _ _ params _ _ _ body _ => params ++ [body]
  | VariableDeclaration ds => ds
  | VariableDeclarator id init _ =>
      id :: match init with Some x => [x] | None => [] end
  | ClassDeclaration _ superClass body _ =>
      match superClass with Some x => [x] | None => [] end ++ body
  | ClassMethod key _ params _ _ _ body _ => key :: params ++ [body]
  | TSInterfaceDeclaration _ _ | TSTypeAliasDeclaration _ _ => []
  | ExportNamedDeclaration d specs _ =>
      match d with Some x => [x] | None => [] end ++ specs
  | ExportSpecifier _ _ _ | ExportNamespaceSpecifier _ => []
  | ExportDefaultDeclaration d _ => [d]
  | ExportAllDeclaration _ _ => []
  | ImportDeclaration specs _ _ _ => specs
  | ImportDefaultSpecifier _ | ImportNamespaceSpecifier _
  | ImportSpecifier _ _ => []
  | ExpressionStatement e => [e]
  | BlockStatement b => b
  | Program b => b
  | File p => [p]
  | OtherNode _ cs => cs
  end.

(** A type as the parser produces it: the identifier of a type reference
    is not the empty string, a union has a member. *)
Fixpoint well_formed_type (ty : TSType) : bool :=
  match ty with
  | TSTypeReference (TSIdentifier name) => negb (String.eqb name "")
  | TSArrayType elementType => well_formed_type elementType
  | TSUnionType types =>
      match types with
      | [] => false
      | _ => forallb well_formed_type types
      end
  | _ => true
  end.

(** The definition [validateAPIUsage] finds for an API, if any. *)
Definition api_definition (library api : string)
  : option (list (string * ParameterDefinition.t)) :=
  match object_get SignatureValidator.getCommonAPIs library with
  | Some libraryAPIs => object_get libraryAPIs api
  | None => None
  end.

(** The required parameters of a definition that are not among [keys], in
    the order of the definition. *)
Definition missing_required (definition : list (string * ParameterDefinition.t))
    (keys : list string) : list string :=
  map fst
    (List.filter
       (fun entry =>
          ParameterDefinition.required (snd entry)
          && negb (Js.includes keys (fst entry)))
       definition).

(** The keys that are neither parameters of a definition nor names every
    object inherits, in the order of [keys]. *)
Definition unknown_keys (definition : list (string * ParameterDefinition.t))
    (keys : list string) : list string :=
  List.filter
    (fun key =>
       negb (Js.includes (map fst definition) key)
       && negb (Js.includes SignatureValidator.object_prototype_properties key))
    keys.

(** The entry of [f] in a map built from the cached lists of the files
    [files]: the cached list when [f] is one of the files and its list is
    not empty. *)
Definition cached_nonempty {A} (cache : gmap string (list A))
    (files : list string) (f : string) : option (list A) :=
  match cache !! f with
  | Some (x :: l) => if Js.includes files f then Some (x :: l) else None
  | _ => None
  end.



(** The TypeError of reading the property [method] of [undefined]. *)
Definition method_error (method : string) : JsError :=
  OtherError "TypeError"
    ("Cannot read properties of undefined (reading '" +:+ method +:+ "')").


(** A node at which a callback of [extractFunctionSignatures] calls a
    method through [this]: a function declaration that has a name, and a
    class method with an identifier as key. *)
Definition signatures_need_this (n : node) : bool :=
  match n with
  | Function_ FunctionDeclaration (Some _) _ _ _ _ _ _ => true
  | ClassMethod (Identifier _ _ _) _ _ _ _ _ _ _ => true
  | _ => false
  end.


(** No list of signatures that the validator has cached holds a
    signature. *)
Definition no_signature_cached (st : SignatureValidator.state) : Prop :=
  forall path signatures,
    SignatureValidator.signatureCache st !! path = Some signatures ->
    signatures = [].

(** The result of [validateFunctionCall] for a function that is not among
    the signatures of the file. *)
Definition not_found (functionName : string) (args : list string)
    (filePath : string) : SignatureMatchResult.t :=
  {| SignatureMatchResult.valid := false;
     SignatureMatchResult.expectedSignature := None;
     SignatureMatchResult.actualSignature :=
       functionName +:+ "(" +:+ Js.join ", " args +:+ ")";
     SignatureMatchResult.error :=
       Some ("Function '" +:+ functionName +:+ "' not found in " +:+ filePath);
     SignatureMatchResult.confidence := 0 |}.

(** * Properties *)

(** ** Traversal *)

Lemma bind_Ok_r {A} (m : outcome A) : (let* x := m in Ok x) = m.
Proof. destruct m; reflexivity. Qed.

Lemma bind_ext {A B} (m : outcome A) (f g : A -> outcome B) :
  (forall x, f x = g x) -> (let* x := m in f x) = (let* x := m in g x).
Proof. intros H. destruct m; simpl; [apply H | reflexivity]. Qed.

Section VisitFacts.
Context {S : Type} (visitors : list (string * handler S)).

Lemma visit_all_app (l1 l2 : list node) (s : S) :
  visit_all visitors (l1 ++ l2) s =
  let* s' := visit_all visitors l1 s in visit_all visitors l2 s'.
Proof.
  revert s. induction l1 as [| x l1 IH]; intros s; simpl; [reflexivity |].
  destruct (visit visitors x s); simpl; [apply IH | reflexivity].
Qed.

(** Entering a node, then its children in order. *)
Lemma visit_children (n : node) (s : S) :
  visit visitors n s =
  let* s1 := enter visitors n s in visit_all visitors (children n) s1.
Proof.
  assert (Hgo : forall l s0,
    (fix go (l : list node) (s : S) {struct l} : outcome S :=
       match l with
       | [] => Ok s
       | x :: r => let* s' := visit visitors x s in go r s'
       end) l s0 = visit_all visitors l s0).
  { induction l as [| x l IH]; intros s0; simpl; [reflexivity |].
    destruct (visit visitors x s0); simpl; [apply IH | reflexivity]. }
  destruct n; simpl; apply bind_ext; intros s1;
    repeat match goal with
           | o : option node |- _ => destruct o
           end;
    simpl; rewrite ?visit_all_app; simpl;
    repeat first [ reflexivity
                 | rewrite bind_Ok_r
                 | rewrite Hgo
                 | rewrite visit_all_app; simpl
                 | apply bind_ext; intros ].
Qed.

End VisitFacts.

(** Induction on trees: what holds of a node whenever it holds of its
    children holds of every node. *)
Lemma node_children_ind (Q : node -> Prop) :
  (forall n, Forall Q (children n) -> Q n) -> forall n, Q n.
Proof.
  intros step. fix IH 1. intros n. apply step.
  destruct n; simpl; repeat constructor; try apply IH.
  all: repeat match goal with o : option node |- _ => destruct o end;
    simpl; repeat constructor; try apply IH.
  all: try (apply Forall_app; split; repeat constructor; try apply IH).
  all: match goal with
       | |- Forall _ ?l => induction l; constructor; [apply IH | assumption]
       end.
Qed.

(** What every callback keeps when it returns, the traversal keeps when it
    returns. *)
Lemma visit_preserves {S} (visitors : list (string * handler S))
    (P : S -> Prop) :
  (forall n s s', P s -> enter visitors n s = Ok s' -> P s') ->
  forall n s s', P s -> visit visitors n s = Ok s' -> P s'.
Proof.
  intros Henter n. induction n as [n IH] using node_children_ind.
  intros s s' Hs. rewrite visit_children.
  destruct (enter visitors n s) as [s1 | e] eqn:E; [| discriminate].
  pose proof (Henter n s s1 Hs E) as Hs1. cbn [Js.bind].
  clear E Hs. revert s1 Hs1.
  induction IH as [| x l Hx _ IHl]; intros s1 Hs1; simpl.
  - intros [= <-]. exact Hs1.
  - destruct (visit visitors x s1) as [s2 |] eqn:E2; [| discriminate].
    cbn [Js.bind]. apply IHl. exact (Hx s1 s2 Hs1 E2).
Qed.

Section VisitThrows.
Context {S : Type} (visitors : list (string * handler S)).



End VisitThrows.


(** What reading a key of an object literal yields is one of its
    properties. *)
Lemma object_get_In {A} (props : list (string * A)) (key : string) (v : A) :
  object_get props key = Some v -> In (key, v) props.
Proof.
  induction props as [| [k a] props IH]; simpl; [discriminate |].
  destruct (object_get props key) as [v' |].
  - intros [= <-]. right. apply IH. reflexivity.
  - destruct (String.eqb_spec k key) as [-> | _]; [| discriminate].
    intros [= <-]. left. reflexivity.
Qed.

(** ** Module resolver *)

Section Resolver.
Import ImportTracker.
Variable h : Host.

Lemma prefix_cons (a b : ascii) (s : string) :
  String.prefix (String a EmptyString) (String b s) = true -> a = b.
Proof.
  simpl. destruct (ascii_dec a b) as [E | N]; [auto | discriminate].
Qed.

(** A specifier that starts with a dot or a slash is neither the name of a
    built-in module nor prefixed with [node:]. *)
Lemma relative_not_builtin (importPath : string) :
  startsWith importPath "." = true \/ startsWith importPath "/" = true ->
  Js.includes builtInModules importPath || startsWith importPath "node:"
  = false.
Proof.
  unfold startsWith.
  destruct importPath as [| a s]; [intros [H | H]; discriminate |].
  intros [H | H]; apply prefix_cons in H; subst a; reflexivity.
Qed.

Lemma relative_not_bare (importPath : string) :
  startsWith importPath "." = true \/ startsWith importPath "/" = true ->
  negb (startsWith importPath ".") && negb (startsWith importPath "/") = false.
Proof.
  intros [H | H]; rewrite H; [reflexivity | apply andb_false_r].
Qed.

Lemma first_existing_app (ex : string -> bool) (l1 l2 : list string) :
  first_existing ex (l1 ++ l2) =
  match first_existing ex l1 with
  | (Some p, probed) => (Some p, probed)
  | (None, probed) =>
      let '(found, probed2) := first_existing ex l2 in
      (found, probed ++ probed2)
  end.
Proof.
  induction l1 as [| p l1 IH]; simpl.
  - destruct (first_existing ex l2); reflexivity.
  - destruct (ex p); [reflexivity |].
    rewrite IH. destruct (first_existing ex l1) as [[q |] probed].
    + reflexivity.
    + destruct (first_existing ex l2); reflexivity.
Qed.

Lemma first_existing_In (ex : string -> bool) (l : list string) p probed :
  first_existing ex l = (Some p, probed) -> In p l /\ ex p = true.
Proof.
  revert probed. induction l as [| q l IH]; simpl; intros probed E.
  - discriminate.
  - destruct (ex q) eqn:Eq.
    + inversion E; subst. auto.
    + destruct (first_existing ex l) as [found pr] eqn:El.
      inversion E; subst. destruct (IH _ eq_refl); auto.
Qed.

Lemma first_existing_None (ex : string -> bool) (l : list string) probed :
  first_existing ex l = (None, probed) ->
  probed = l /\ forall p, In p l -> ex p = false.
Proof.
  revert probed. induction l as [| q l IH]; simpl; intros probed E.
  - inversion E. split; [reflexivity | intros p []].
  - destruct (ex q) eqn:Eq; [discriminate |].
    destruct (first_existing ex l) as [found pr] eqn:El.
    inversion E; subst. destruct (IH _ eq_refl) as [-> Hall].
    split; [reflexivity |]. intros p [<- | Hin]; auto.
Qed.

(** The loop of the source is [first_existing] on the candidates it
    builds. *)
Lemma probe_loop_first_existing (candidate : string -> string)
    (exts : list string) (foundPath : option string) (probed : list string) :
  probe_loop h candidate exts foundPath probed =
  let '(found, probed') :=
    first_existing (existsSync h) (map candidate exts) in
  (match found with Some p => Some p | None => foundPath end,
   probed ++ probed').
Proof.
  revert probed. induction exts as [| ext exts IH]; intros probed; simpl.
  - rewrite app_nil_r. reflexivity.
  - destruct (existsSync h (candidate ext)); [reflexivity |].
    rewrite IH.
    destruct (first_existing (existsSync h) (map candidate exts)).
    rewrite <- app_assoc. reflexivity.
Qed.

Lemma truthy_Some (p : string) : p <> "" -> truthy (Some p) = true.
Proof.
  intros N. simpl. destruct (String.eqb_spec p ""); [contradiction | reflexivity].
Qed.

Lemma append_nonempty (a b : string) : a <> "" -> a +:+ b <> "".
Proof. destruct a; [contradiction | discriminate]. Qed.
End Resolver.

(** C6.  A bare package-style specifier (one that starts neither with a dot
    nor with a slash) resolves to itself with [exists = true], whatever the
    host's file system holds and whatever the importing file is; the
    resolver returns a plain result (it has no throwing path) and hands no
    path to [existsSync]. *)
Theorem resolveImportPath_bare_specifier (h : Host) (importPath fromFile : string) :
  startsWith importPath "." = false ->
  startsWith importPath "/" = false ->
  ImportTracker.resolveImportPath h importPath fromFile =
  ({| ImportResolutionResult.resolvedPath := Some importPath;
      ImportResolutionResult.exists_ := true;
      ImportResolutionResult.alternatives := None;
      ImportResolutionResult.error := None |}, []).
Proof.
  intros Hdot Hslash. unfold ImportTracker.resolveImportPath.
  destruct (Js.includes ImportTracker.builtInModules importPath
            || startsWith importPath "node:"); [reflexivity |].
  rewrite Hdot, Hslash. reflexivity.
Qed.

Lemma resolveImportPath_bare_specifier_witness :
  ImportTracker.resolveImportPath (Sample.workspace Unbound) "lodash" "/w/a.ts"
  = (ImportTracker.resolved_as "lodash", []).
Proof.
  apply (resolveImportPath_bare_specifier (Sample.workspace Unbound)
           "lodash" "/w/a.ts"); reflexivity.
Defined.

(** C10.  In every result of the resolver, [exists] is true exactly when
    [resolvedPath] is not null, and [error] is present exactly when [exists]
    is false; a successful resolution carries no error. *)
Theorem resolveImportPath_result_invariant (h : Host)
    (importPath fromFile : string) :
  let r := fst (ImportTracker.resolveImportPath h importPath fromFile) in
  ImportResolutionResult.exists_ r = present (ImportResolutionResult.resolvedPath r)
  /\ present (ImportResolutionResult.error r)
     = negb (ImportResolutionResult.exists_ r).
Proof.
  unfold ImportTracker.resolveImportPath.
  destruct (Js.includes _ _ || _); [simpl; auto |].
  destruct (negb _ && negb _); [simpl; auto |].
  destruct (ImportTracker.probe_loop h _ _ None []) as [f1 p1].
  destruct (negb (truthy f1)).
  - destruct (ImportTracker.probe_loop h _ _ f1 p1) as [f2 p2].
    destruct (negb (truthy f2)).
    + destruct (existsSync h _).
      * destruct (truthy (Some _)); simpl; auto.
      * destruct f2 as [q |]; [destruct (truthy (Some q)) |]; simpl; auto.
    + destruct f2 as [q |]; [destruct (truthy (Some q)) |]; simpl; auto.
  - destruct (negb (truthy f1)).
    + destruct (existsSync h _).
      * destruct (truthy (Some _)); simpl; auto.
      * destruct f1 as [q |]; [destruct (truthy (Some q)) |]; simpl; auto.
    + destruct f1 as [q |]; [destruct (truthy (Some q)) |]; simpl; auto.
Qed.

(** C4 (as amended).  For a specifier that starts with a dot or a slash the
    resolver probes, in this order and stopping at the first path that
    exists: the resolved path suffixed with .ts, .tsx, .js, .jsx, .mts, .mjs
    and .cjs, then the resolved path itself, then [index] with each of the
    seven extensions inside the resolved path, then [index] without
    extension, and last [package.json] inside the resolved path, whose
    presence makes the resolved path itself the result.  In particular,
    when the resolved path suffixed with .ts exists it is the result,
    whether or not the resolved path itself exists. *)
Theorem resolveImportPath_probing_order (h : Host)
    (importPath fromFile : string) :
  let resolved := path_resolve h (path_dirname h fromFile) importPath in
  startsWith importPath "." = true \/ startsWith importPath "/" = true ->
  resolved <> "" ->
  (forall name, path_join h resolved name <> "") ->
  ImportTracker.resolveImportPath h importPath fromFile =
    match first_existing (existsSync h) (candidate_paths h resolved) with
    | (Some p, probed) => (ImportTracker.resolved_as p, probed)
    | (None, probed) =>
        let manifest := path_join h resolved "package.json" in
        (if existsSync h manifest then ImportTracker.resolved_as resolved
         else unresolved importPath fromFile,
         probed ++ [manifest])
    end
  /\ (existsSync h (resolved +:+ ".ts") = true ->
      ImportTracker.resolveImportPath h importPath fromFile =
      (ImportTracker.resolved_as (resolved +:+ ".ts"), [resolved +:+ ".ts"])).
Proof.
  intros resolved Hrel Hres Hjoin.
  assert (Hcand : forall p, In p (candidate_paths h resolved) -> p <> "").
  { unfold candidate_paths. intros p Hin. apply in_app_or in Hin.
    destruct Hin as [Hin | Hin]; apply in_map_iff in Hin;
      destruct Hin as (ext & <- & _); [apply append_nonempty; exact Hres | apply Hjoin]. }
  assert (Hmain :
    ImportTracker.resolveImportPath h importPath fromFile =
    match first_existing (existsSync h) (candidate_paths h resolved) with
    | (Some p, probed) => (ImportTracker.resolved_as p, probed)
    | (None, probed) =>
        let manifest := path_join h resolved "package.json" in
        (if existsSync h manifest then ImportTracker.resolved_as resolved
         else unresolved importPath fromFile,
         probed ++ [manifest])
    end).
  { unfold ImportTracker.resolveImportPath.
    rewrite (relative_not_builtin importPath Hrel).
    rewrite (relative_not_bare importPath Hrel).
    fold resolved.
    rewrite (probe_loop_first_existing h _ ImportTracker.extensions None []).
    unfold candidate_paths in *. rewrite first_existing_app.
    set (c1 := map (fun ext => resolved +:+ ext) ImportTracker.extensions) in *.
    set (c2 := map (fun ext => path_join h resolved ("index" +:+ ext))
                 ImportTracker.extensions) in *.
    destruct (first_existing (existsSync h) c1) as [[p |] pr1] eqn:E1.
    - assert (Hp : truthy (Some p) = true).
      { apply truthy_Some, Hcand, in_or_app. left.
        exact (proj1 (first_existing_In _ _ _ _ E1)). }
      repeat first [rewrite Hp | progress cbn [negb app] | progress cbv beta iota].
      reflexivity.
    - change (truthy None) with false.
      repeat first [progress cbn [negb app] | progress cbv beta iota].
      rewrite (probe_loop_first_existing h _ ImportTracker.extensions None).
      fold c2.
      destruct (first_existing (existsSync h) c2) as [[p |] pr2] eqn:E2.
      + assert (Hp : truthy (Some p) = true).
        { apply truthy_Some, Hcand, in_or_app. right.
          exact (proj1 (first_existing_In _ _ _ _ E2)). }
        repeat first [rewrite Hp | progress cbn [negb app] | progress cbv beta iota].
        reflexivity.
      + change (truthy None) with false.
        repeat first [progress cbn [negb app] | progress cbv beta iota zeta].
        destruct (existsSync h (path_join h resolved "package.json")).
        * rewrite (truthy_Some resolved Hres). reflexivity.
        * reflexivity. }
  split; [exact Hmain |].
  intros Hts. rewrite Hmain. unfold candidate_paths. simpl.
  rewrite Hts. reflexivity.
Qed.

Lemma sample_join_nonempty (this : this_binding) (a name : string) :
  path_join (Sample.workspace this) a name <> "".
Proof. discriminate. Qed.

Lemma resolveImportPath_probing_order_witness :
  ImportTracker.resolveImportPath (Sample.workspace Unbound) "./x" "/w/a.ts"
  = (ImportTracker.resolved_as "/w/x.ts", ["/w/x.ts"]).
Proof.
  refine (proj2 (resolveImportPath_probing_order (Sample.workspace Unbound)
                   "./x" "/w/a.ts" _ _ _) _).
  - left. reflexivity.
  - discriminate.
  - intros name. apply sample_join_nonempty.
  - reflexivity.
Defined.

(** C4 (as stated) fails: on a disk that holds both [/w/x] and [/w/x.ts],
    the specifier [./x] imported from [/w/a.ts] resolves to [/w/x.ts], not to
    the literal path [/w/x]; the literal path is not even probed. *)
Lemma resolveImportPath_literal_path_not_first :
  existsSync (Sample.workspace Unbound) "/w/x" = true
  /\ existsSync (Sample.workspace Unbound) "/w/x.ts" = true
  /\ path_resolve (Sample.workspace Unbound)
       (path_dirname (Sample.workspace Unbound) "/w/a.ts") "./x" = "/w/x"
  /\ ImportTracker.resolveImportPath (Sample.workspace Unbound) "./x" "/w/a.ts"
     = (ImportTracker.resolved_as "/w/x.ts", ["/w/x.ts"])
  /\ ImportResolutionResult.resolvedPath
       (fst (ImportTracker.resolveImportPath (Sample.workspace Unbound)
               "./x" "/w/a.ts"))
     <> Some "/w/x".
Proof.
  repeat split; try reflexivity. vm_compute. discriminate.
Qed.

(** ** Signature validator *)

(** With [this] undefined no signature record is built: the callback
    throws at [this.extractTypeAnnotation] for the first parameter, or at
    [this.extractReturnType] when there is no parameter. *)
Lemma push_signature_unbound (filePath name : string) (params : list node)
    (returnType : option annotation) (async generator : bool)
    (loc : option SourceLocation) (signatures : list FunctionSignature.t) :
  exists method,
    ASTAnalyzer.push_signature Unbound filePath name params returnType async
      generator loc signatures
    = Throw (method_error method).
Proof.
  unfold ASTAnalyzer.push_signature.
  destruct params as [| param params]; eexists; reflexivity.
Qed.

Lemma signatures_enter_unbound (filePath : string) (n : node)
    (signatures : list FunctionSignature.t) :
  if signatures_need_this n
  then exists method,
         enter (ASTAnalyzer.signatures_visitors Unbound filePath) n signatures
         = Throw (method_error method)
  else enter (ASTAnalyzer.signatures_visitors Unbound filePath) n signatures
       = Ok signatures.
Proof.
  unfold enter.
  destruct (object_get _ (node_type n)) as [hd |] eqn:E.
  - apply object_get_In in E. simpl in E.
    destruct E as [E | [E | []]]; injection E as Ht <-.
    + unfold ASTAnalyzer.signatures_FunctionDeclaration.
      destruct n; try reflexivity; try discriminate.
      destruct kind; try discriminate.
      destruct id; [apply push_signature_unbound | reflexivity].
    + unfold ASTAnalyzer.signatures_ClassMethod.
      destruct n; try reflexivity; try discriminate;
        try (destruct kind; discriminate).
      match goal with
      | |- context [ClassMethod ?key _ _ _ _ _ _ _] => destruct key
      end; try reflexivity.
      apply push_signature_unbound.
  - destruct n; try reflexivity; try discriminate.
    destruct kind; try reflexivity; discriminate.
Qed.

(** With [this] undefined [extractFunctionSignatures] returns no
    signature. *)
Lemma extractFunctionSignatures_unbound_empty (filePath : string) (ast : node)
    (signatures : list FunctionSignature.t) :
  ASTAnalyzer.extractFunctionSignatures Unbound filePath ast = Ok signatures ->
  signatures = [].
Proof.
  unfold ASTAnalyzer.extractFunctionSignatures, traverse_default.
  intros H. apply (visit_preserves _ (fun s => s = [])) in H;
    [exact H | | reflexivity].
  intros n s s' -> Hn.
  pose proof (signatures_enter_unbound filePath n []) as He.
  destruct (signatures_need_this n).
  - destruct He as [method He]. rewrite He in Hn. discriminate.
  - rewrite He in Hn. injection Hn as <-. reflexivity.
Qed.

(** With [this] undefined in the callbacks, [getSignatures] answers the
    empty list and caches nothing but empty lists. *)
Lemma getSignatures_without_this (h : Host) (st : SignatureValidator.state)
    (filePath : string) :
  visitor_this h = Unbound ->
  no_signature_cached st ->
  fst (SignatureValidator.getSignatures h st filePath) = Ok []
  /\ no_signature_cached (snd (SignatureValidator.getSignatures h st filePath)).
Proof.
  intros Hthis Hst. unfold SignatureValidator.getSignatures.
  destruct (SignatureValidator.signatureCache st !! filePath)
    as [cached |] eqn:Ec.
  - rewrite (Hst filePath cached Ec). split; [reflexivity | exact Hst].
  - destruct (ASTAnalyzer.parseFile h _ filePath) as [[ast | e] c];
      cbn [Js.bind]; [| split; [reflexivity | exact Hst]].
    rewrite Hthis.
    destruct (ASTAnalyzer.extractFunctionSignatures Unbound filePath ast)
      as [signatures | e] eqn:Ex; [| split; [reflexivity | exact Hst]].
    apply extractFunctionSignatures_unbound_empty in Ex. subst signatures.
    split; [reflexivity |].
    intros p sigs. cbn [snd SignatureValidator.signatureCache].
    destruct (String.eqb_spec filePath p) as [-> | Hne].
    + rewrite lookup_insert_eq. intros [= <-]. reflexivity.
    + rewrite lookup_insert_ne by exact Hne. apply Hst.
Qed.

(** C7 (the code misses it).  [validateFunctionCall] is written to compare
    the number of arguments with the number of required and of all
    parameters of the signature it finds, but it finds none: the
    signatures come from [extractFunctionSignatures], whose callbacks call
    [this.extractTypeAnnotation] and [this.extractReturnType] with [this]
    undefined, so extraction throws on every function, [getSignatures]
    answers the empty list, and every call with a file path is answered
    [Function 'name' not found in filePath] with confidence 0.  This holds
    in every state of a validator in which no signature is cached, which
    the state after the call is again; a new validator is in such a state.
    [/w/f.ts] holds [function f(a, b?) {}]: the call of [f] with one
    argument is not valid, and the call with three arguments is not
    answered [Expected at most 2 arguments, got 3].  Were [this] bound to
    the analyzer in the callbacks, the first call would be valid and the
    second would get that answer, both with confidence 1. *)
Theorem validateFunctionCall_arity_not_reached :
  (forall (h : Host) (st : SignatureValidator.state)
          (functionName : string) (args : list string) (filePath : string),
     visitor_this h = Unbound ->
     no_signature_cached st ->
     filePath <> "" ->
     fst (SignatureValidator.validateFunctionCall h st functionName args
            (Some filePath))
     = Ok (not_found functionName args filePath)
     /\ no_signature_cached
          (snd (SignatureValidator.validateFunctionCall h st functionName args
                  (Some filePath))))
  /\ no_signature_cached SignatureValidator.new
  /\ (readFileSync (Sample.workspace Unbound) "/w/f.ts"
      = inl Sample.f_a_b_text
      /\ parser_parse (Sample.workspace Unbound) Sample.f_a_b_text
         = inl Sample.f_a_b)
  /\ fst (SignatureValidator.validateFunctionCall (Sample.workspace Unbound)
            SignatureValidator.new "f" ["x"] (Some "/w/f.ts"))
     = Ok (not_found "f" ["x"] "/w/f.ts")
  /\ fst (SignatureValidator.validateFunctionCall (Sample.workspace Unbound)
            SignatureValidator.new "f" ["x"; "y"; "z"] (Some "/w/f.ts"))
     = Ok (not_found "f" ["x"; "y"; "z"] "/w/f.ts")
  /\ (exists r,
        fst (SignatureValidator.validateFunctionCall
               (Sample.workspace BoundToInstance) SignatureValidator.new
               "f" ["x"] (Some "/w/f.ts")) = Ok r
        /\ SignatureMatchResult.valid r = true
        /\ SignatureMatchResult.confidence r = 1)
  /\ (exists r,
        fst (SignatureValidator.validateFunctionCall
               (Sample.workspace BoundToInstance) SignatureValidator.new
               "f" ["x"; "y"; "z"] (Some "/w/f.ts")) = Ok r
        /\ SignatureMatchResult.valid r = false
        /\ SignatureMatchResult.error r
           = Some "Expected at most 2 arguments, got 3"
        /\ SignatureMatchResult.confidence r = 1).
Proof.
  split; [| split; [| split; [| split; [| split; [| split]]]]].
  - intros h st functionName args filePath Hthis Hst Hpath.
    unfold SignatureValidator.validateFunctionCall.
    rewrite (truthy_Some filePath Hpath).
    destruct (getSignatures_without_this h st filePath Hthis Hst)
      as [Hget Hst'].
    destruct (SignatureValidator.getSignatures h st filePath)
      as [signatures st'].
    cbn [fst snd] in *. subst signatures. split; [reflexivity | exact Hst'].
  - intros path signatures H.
    change (SignatureValidator.signatureCache SignatureValidator.new)
      with (∅ : gmap string (list FunctionSignature.t)) in H.
    rewrite lookup_empty in H. discriminate.
  - split; reflexivity.
  - vm_compute. reflexivity.
  - vm_compute. reflexivity.
  - eexists. split; [vm_compute; reflexivity |]. split; reflexivity.
  - eexists. split; [vm_compute; reflexivity |]. repeat split; reflexivity.
Qed.

Lemma validateFunctionCall_arity_not_reached_witness :
  fst (SignatureValidator.validateFunctionCall (Sample.workspace Unbound)
         SignatureValidator.new "f" ["x"] (Some "/w/f.ts"))
  = Ok (not_found "f" ["x"] "/w/f.ts")
  /\ no_signature_cached
       (snd (SignatureValidator.validateFunctionCall
               (Sample.workspace Unbound) SignatureValidator.new "f" ["x"]
               (Some "/w/f.ts"))).
Proof.
  apply (proj1 validateFunctionCall_arity_not_reached
           (Sample.workspace Unbound) SignatureValidator.new "f" ["x"]
           "/w/f.ts").
  - reflexivity.
  - exact (proj1 (proj2 validateFunctionCall_arity_not_reached)).
  - discriminate.
Defined.

(** C5 (as amended).  When the source of [filePath] fails to parse,
    [parseFile] throws the analysis error, [getSignatures] catches it and
    answers the empty list, and [validateFunctionCall] returns the invalid
    result [Function 'name' not found in filePath] with confidence 0: the
    parse error does not reach the caller. *)
Theorem validateFunctionCall_parse_failure (h : Host)
    (st : SignatureValidator.state) (functionName : string)
    (args : list string) (filePath code : string) (error : string * string) :
  truthy (Some filePath) = true ->
  SignatureValidator.signatureCache st !! filePath = None ->
  SignatureValidator.analyzer st !! filePath = None ->
  readFileSync h filePath = inl code ->
  parser_parse h code = inr error ->
  fst (ASTAnalyzer.parseFile h (SignatureValidator.analyzer st) filePath)
  = Throw (AnalysisError ("Failed to parse file: " +:+ snd error)
             (Some filePath))
  /\ fst (SignatureValidator.getSignatures h st filePath) = Ok []
  /\ fst (SignatureValidator.validateFunctionCall h st functionName args
            (Some filePath))
     = Ok {| SignatureMatchResult.valid := false;
             SignatureMatchResult.expectedSignature := None;
             SignatureMatchResult.actualSignature :=
               functionName +:+ "(" +:+ Js.join ", " args +:+ ")";
             SignatureMatchResult.error :=
               Some ("Function '" +:+ functionName +:+ "' not found in "
                     +:+ filePath);
             SignatureMatchResult.confidence := 0 |}.
Proof.
  intros Hpath Hsig Hast Hread Hparse.
  assert (Hfile :
    ASTAnalyzer.parseFile h (SignatureValidator.analyzer st) filePath
    = (Throw (AnalysisError ("Failed to parse file: " +:+ snd error)
                (Some filePath)), SignatureValidator.analyzer st)).
  { unfold ASTAnalyzer.parseFile, ASTAnalyzer.parse.
    rewrite Hread. cbn [from_library]. rewrite Hast, Hparse.
    destruct error as [name message]. reflexivity. }
  assert (Hget :
    fst (SignatureValidator.getSignatures h st filePath) = Ok []).
  { unfold SignatureValidator.getSignatures. rewrite Hsig, Hfile. reflexivity. }
  split; [rewrite Hfile; reflexivity |]. split; [exact Hget |].
  unfold SignatureValidator.validateFunctionCall. rewrite Hpath.
  destruct (SignatureValidator.getSignatures h st filePath) as [r st'].
  simpl in Hget. subst r. reflexivity.
Qed.

Lemma validateFunctionCall_parse_failure_witness :
  fst (SignatureValidator.validateFunctionCall
         (Sample.workspace BoundToInstance) SignatureValidator.new
         "f" ["x"] (Some "/w/bad.ts"))
  = Ok {| SignatureMatchResult.valid := false;
          SignatureMatchResult.expectedSignature := None;
          SignatureMatchResult.actualSignature := "f(x)";
          SignatureMatchResult.error :=
            Some "Function 'f' not found in /w/bad.ts";
          SignatureMatchResult.confidence := 0 |}.
Proof.
  apply (validateFunctionCall_parse_failure
           (Sample.workspace BoundToInstance) SignatureValidator.new
           "f" ["x"] "/w/bad.ts" "function ("
           ("SyntaxError", "Unexpected token (1:0)"));
    reflexivity.
Defined.

(** C5 (as stated) fails: [/w/bad.ts] holds text the parser rejects,
    [parseFile] throws the analysis error for it, and [validateFunctionCall]
    on that file returns the [not found] result instead of throwing. *)
Lemma validateFunctionCall_swallows_parse_error :
  parser_parse (Sample.workspace BoundToInstance) "function ("
  = inr ("SyntaxError", "Unexpected token (1:0)")
  /\ fst (ASTAnalyzer.parseFile (Sample.workspace BoundToInstance) ∅ "/w/bad.ts")
     = Throw (AnalysisError "Failed to parse file: Unexpected token (1:0)"
                (Some "/w/bad.ts"))
  /\ fst (SignatureValidator.validateFunctionCall
            (Sample.workspace BoundToInstance) SignatureValidator.new
            "f" ["x"] (Some "/w/bad.ts"))
     = Ok {| SignatureMatchResult.valid := false;
             SignatureMatchResult.expectedSignature := None;
             SignatureMatchResult.actualSignature := "f(x)";
             SignatureMatchResult.error :=
               Some "Function 'f' not found in /w/bad.ts";
             SignatureMatchResult.confidence := 0 |}.
Proof. repeat split; vm_compute; reflexivity. Qed.

(** ** Symbol extractor *)

Lemma append_assoc (a b c : string) : (a +:+ b) +:+ c = a +:+ b +:+ c.
Proof.
  induction a as [| x a IH]; [reflexivity |].
  change (String x ((a +:+ b) +:+ c) = String x (a +:+ b +:+ c)).
  rewrite IH. reflexivity.
Qed.

Lemma render_param_erase (param : node) :
  ASTAnalyzer.render_param (erase_annotation param)
  = ASTAnalyzer.render_param param.
Proof. destruct param; reflexivity. Qed.

(** C1 (the code misses it).  For the file [export function name() {}]
    the export callback runs when the export node is entered, before the
    declaration inside it has been collected, so nothing is promoted: with
    [this] bound to the analyzer the one symbol has [exported = false], and
    with [this] unbound the declaration callback throws.  An
    [export { name }] specifier promotes the function when it follows the
    declaration and does not when it precedes it; a declaration that is not
    exported stays [exported = false]. *)
Theorem extractSymbols_export_promotion_order (filePath name : string) :
  ASTAnalyzer.extractSymbols BoundToInstance filePath (Sample.inline_export name)
  = Ok [{| SymbolInfo.name := name; SymbolInfo.type := Kind.function;
           SymbolInfo.filePath := filePath;
           SymbolInfo.line := Some 1; SymbolInfo.column := Some 7;
           SymbolInfo.signature := Some ("function " +:+ name +:+ "()");
           SymbolInfo.exported := false |}]
  /\ ASTAnalyzer.extractSymbols Unbound filePath (Sample.inline_export name)
     = Throw (OtherError "TypeError"
                "Cannot read properties of undefined (reading 'generateFunctionSignature')")
  /\ ASTAnalyzer.extractSymbols BoundToInstance filePath
       (Sample.declaration_then_export name)
     = Ok [{| SymbolInfo.name := name; SymbolInfo.type := Kind.function;
              SymbolInfo.filePath := filePath;
              SymbolInfo.line := Some 1; SymbolInfo.column := Some 0;
              SymbolInfo.signature := Some ("function " +:+ name +:+ "()");
              SymbolInfo.exported := true |}]
  /\ ASTAnalyzer.extractSymbols BoundToInstance filePath
       (Sample.export_then_declaration name)
     = Ok [{| SymbolInfo.name := name; SymbolInfo.type := Kind.function;
              SymbolInfo.filePath := filePath;
              SymbolInfo.line := Some 2; SymbolInfo.column := Some 0;
              SymbolInfo.signature := Some ("function " +:+ name +:+ "()");
              SymbolInfo.exported := false |}]
  /\ ASTAnalyzer.extractSymbols BoundToInstance filePath
       (Sample.plain_declaration name)
     = Ok [{| SymbolInfo.name := name; SymbolInfo.type := Kind.function;
              SymbolInfo.filePath := filePath;
              SymbolInfo.line := Some 1; SymbolInfo.column := Some 0;
              SymbolInfo.signature := Some ("function " +:+ name +:+ "()");
              SymbolInfo.exported := false |}].
Proof.
  split; [reflexivity |]. split; [reflexivity |].
  split; [| split; reflexivity].
  transitivity
    (Ok (ASTAnalyzer.promote name
           [ASTAnalyzer.mk_symbol filePath name Kind.function (Sample.at_ 1 0)
              (Some ("function " +:+ name +:+ "()"))]));
    [reflexivity |].
  unfold ASTAnalyzer.promote, ASTAnalyzer.mk_symbol.
  cbn [SymbolInfo.name]. rewrite String.eqb_refl. reflexivity.
Qed.

(** C2 (as stated) fails: for the file
    [export function add(a: number, b: number) {}], whatever [this] is bound
    to in the callbacks, [extractSymbols] does not return one symbol named
    [add] of kind function with [exported = true] and the signature
    [add(a: number, b: number)]. *)
Lemma extractSymbols_add_not_as_stated :
  ~ exists (this : this_binding) (s : SymbolInfo.t),
      ASTAnalyzer.extractSymbols this "a.ts" Sample.export_add = Ok [s]
      /\ SymbolInfo.name s = "add"
      /\ SymbolInfo.type s = Kind.function
      /\ SymbolInfo.exported s = true
      /\ SymbolInfo.signature s = Some "add(a: number, b: number)".
Proof.
  intros (this & s & Hs & _ & _ & _ & Hsig).
  destruct this; vm_compute in Hs; [| discriminate].
  injection Hs as <-. discriminate.
Qed.

(** C2 (as amended).  [generateFunctionSignature] renders
    [function add(a: number, b: number) {}] as [function add(a, b)].  In
    general the rendered string is the [function] / [function*] marker (none
    for an arrow function), [async ] when the function is async, the name,
    the parameters between parentheses separated by a comma and a space,
    each identifier parameter as [name] or [name?] and any other pattern as
    [(...)], and the return type after a colon when it is annotated: the
    type annotations of the parameters are not rendered.  For the file
    [export function add(a: number, b: number) {}] itself [extractSymbols]
    collects no symbol: the callback of the declaration reads
    [this.generateFunctionSignature] with [this] undefined and throws (the
    defect of C1). *)
Theorem generateFunctionSignature_shape (filePath : string)
    (kind : function_kind) (id : option string) (params : list node)
    (returnType : option annotation) (async generator : bool) :
  ASTAnalyzer.generateFunctionSignature FunctionDeclaration (Some "add")
    [Identifier "a" false (Some (TSTypeAnnotation TSNumberKeyword));
     Identifier "b" false (Some (TSTypeAnnotation TSNumberKeyword))]
    None false false
  = "function add(a, b)"
  /\ ASTAnalyzer.extractSymbols Unbound filePath Sample.export_add
     = Throw (OtherError "TypeError"
                "Cannot read properties of undefined (reading 'generateFunctionSignature')")
  /\ ASTAnalyzer.generateFunctionSignature kind id params returnType
       async generator
     = function_marker kind generator +:+ async_marker async +:+
       match id with Some name => name | None => "anonymous" end +:+
       "(" +:+ Js.join ", " (map ASTAnalyzer.render_param params) +:+ ")" +:+
       return_suffix returnType
  /\ ASTAnalyzer.generateFunctionSignature kind id
       (map erase_annotation params) returnType async generator
     = ASTAnalyzer.generateFunctionSignature kind id params returnType
         async generator.
Proof.
  split; [reflexivity |].
  split; [reflexivity |].
  split.
  - unfold ASTAnalyzer.generateFunctionSignature, return_suffix,
      function_marker, async_marker.
    set (name := match id with Some name => name | None => "anonymous" end).
    set (ps := Js.join ", " (map ASTAnalyzer.render_param params)).
    destruct (ASTAnalyzer.extractReturnType returnType) as [ty |];
      [cbn [truthy template_value]; destruct (String.eqb ty "") |
       cbn [truthy]];
      destruct kind, async, generator; cbn [negb andb];
      rewrite ?append_assoc; reflexivity.
  - unfold ASTAnalyzer.generateFunctionSignature.
    rewrite map_map.
    rewrite (map_ext _ _ render_param_erase). reflexivity.
Qed.

(** ** Import extractor *)

(** C3 (the code misses it).  [/w/dyn.ts] holds [import("m");] and
    [/w/req.ts] holds [require("m");].  [extractImports] reads the property
    [traverse] of the analyzer, which the class does not declare, so the call
    throws and both files end in the analysis error of the catch branch: no
    record is returned for either.  Were the traversal supplied, a [require]
    call with a string literal would yield its record with specifiers
    [["require"]], but a dynamic import would still yield none: the visitor
    object writes the key [CallExpression] twice, reading it gives the
    [require] callback, and the callback for dynamic imports never runs,
    whether the callee is the parser's [Import] node or an identifier named
    [import]. *)
Theorem extractImports_dynamic_import_lost (m : string)
    (loc : option SourceLocation) :
  fst (ImportTracker.extractImports (Sample.workspace BoundToInstance)
         (ImportTracker.new "/w") "/w/dyn.ts")
  = Throw (AnalysisError
             "Failed to extract imports: this.analyzer.traverse is not a function"
             (Some "/w/dyn.ts"))
  /\ fst (ImportTracker.extractImports (Sample.workspace BoundToInstance)
            (ImportTracker.new "/w") "/w/req.ts")
     = Throw (AnalysisError
                "Failed to extract imports: this.analyzer.traverse is not a function"
                (Some "/w/req.ts"))
  /\ fst (ImportTracker.extractImports_with (Some ImportTracker.babel_traverse)
            (Sample.workspace BoundToInstance) (ImportTracker.new "/w")
            "/w/dyn.ts")
     = Ok []
  /\ object_get ImportTracker.imports_visitors "CallExpression"
     = Some (ImportTracker.imports_call "require" "require")
  /\ traverse_default ImportTracker.imports_visitors
       (Sample.call_statement Import m loc) []
     = Ok []
  /\ traverse_default ImportTracker.imports_visitors
       (Sample.call_statement (Identifier "import" false None) m loc) []
     = Ok []
  /\ traverse_default ImportTracker.imports_visitors
       (Sample.call_statement (Identifier "require" false None) m loc) []
     = Ok [{| ImportInfo.path := m; ImportInfo.source := m;
              ImportInfo.specifiers := ["require"];
              ImportInfo.isTypeOnly := false;
              ImportInfo.line := loc_line loc |}].
Proof. repeat split; reflexivity. Qed.

(** The errors of [parseFile] are analysis errors that carry the path of
    the file. *)
Lemma parseFile_error (h : Host) (c : gmap string node) (filePath : string)
    (e : JsError) :
  fst (ASTAnalyzer.parseFile h c filePath) = Throw e ->
  exists message, e = AnalysisError message (Some filePath).
Proof.
  unfold ASTAnalyzer.parseFile, ASTAnalyzer.parse.
  destruct (readFileSync h filePath) as [code | [name message]]; cbn [from_library].
  - destruct (c !! filePath); [discriminate |].
    destruct (parser_parse h code) as [ast | [name message]]; cbn; [discriminate |].
    intros [= <-]. eauto.
  - cbn. intros [= <-]. eauto.
Qed.

(** The failure of [extractImports] or [extractExports] in [H], once the
    cache is known to miss: the [try] block throws what [parseFile] threw, or
    the TypeError of the missing [traverse]. *)
Ltac analysis_error_of_parseFile h st filePath H :=
  let parsed := fresh "parsed" in
  let c := fresh "c" in
  let Ep := fresh "Ep" in
  let m := fresh "m" in
  destruct (ASTAnalyzer.parseFile h (ImportTracker.analyzer st) filePath)
    as [parsed c] eqn:Ep;
  destruct parsed as [? | ?u]; cbn in H;
  [ injection H as <-; split; reflexivity
  | match type of Ep with
    | _ = (Throw ?u, _) =>
        destruct (parseFile_error h (ImportTracker.analyzer st) filePath u)
          as [m ->]; [rewrite Ep; reflexivity |];
        cbn in H; injection H as <-; split; reflexivity
    end ].

(** C9.  Whatever the traversal is and whatever the [try] block of
    [extractImports] or [extractExports] throws, the function throws an
    analysis error: the thrown error itself when it already is one (it is
    not wrapped again), and otherwise a new analysis error that carries the
    path of the file and the message of the cause.  With the [try] block of
    the source, every failure of the two functions is an analysis error that
    carries the path of the file. *)
Theorem extract_failure_is_analysis_error (member : option ImportTracker.traversal)
    (h : Host) (st : ImportTracker.state) (filePath : string) :
  (forall u,
     ImportTracker.importsCache st !! filePath = None ->
     fst (ImportTracker.extractImports_try member h st filePath) = Throw u ->
     fst (ImportTracker.extractImports_with member h st filePath)
     = Throw (if instanceof_AnalysisError u then u
              else AnalysisError
                     ("Failed to extract imports: " +:+ error_message u)
                     (Some filePath)))
  /\ (forall u,
        ImportTracker.exportsCache st !! filePath = None ->
        fst (ImportTracker.extractExports_try member h st filePath) = Throw u ->
        fst (ImportTracker.extractExports_with member h st filePath)
        = Throw (if instanceof_AnalysisError u then u
                 else AnalysisError
                        ("Failed to extract exports: " +:+ error_message u)
                        (Some filePath)))
  /\ (forall e,
        fst (ImportTracker.extractImports h st filePath) = Throw e ->
        instanceof_AnalysisError e = true /\ error_filePath e = Some filePath)
  /\ (forall e,
        fst (ImportTracker.extractExports h st filePath) = Throw e ->
        instanceof_AnalysisError e = true /\ error_filePath e = Some filePath).
Proof.
  split; [| split; [| split]].
  - intros u Hmiss Htry. unfold ImportTracker.extractImports_with.
    rewrite Hmiss.
    destruct (ImportTracker.extractImports_try member h st filePath) as [body st1].
    simpl in Htry. subst body. cbn [try_catch].
    unfold ImportTracker.extractImports_catch.
    destruct (instanceof_AnalysisError u); reflexivity.
  - intros u Hmiss Htry. unfold ImportTracker.extractExports_with.
    rewrite Hmiss.
    destruct (ImportTracker.extractExports_try member h st filePath) as [body st1].
    simpl in Htry. subst body. cbn [try_catch].
    unfold ImportTracker.extractExports_catch.
    destruct (instanceof_AnalysisError u); reflexivity.
  - intros e H.
    unfold ImportTracker.extractImports, ImportTracker.extractImports_with,
      ImportTracker.extractImports_try in H.
    destruct (ImportTracker.importsCache st !! filePath); [discriminate |].
    analysis_error_of_parseFile h st filePath H.
  - intros e H.
    unfold ImportTracker.extractExports, ImportTracker.extractExports_with,
      ImportTracker.extractExports_try in H.
    destruct (ImportTracker.exportsCache st !! filePath); [discriminate |].
    analysis_error_of_parseFile h st filePath H.
Qed.

Lemma extract_failure_is_analysis_error_witness :
  fst (ImportTracker.extractImports_with ImportTracker.analyzer_traverse
         (Sample.workspace BoundToInstance) (ImportTracker.new "/w")
         "/w/none.ts")
  = Throw (AnalysisError
             "Failed to read file: ENOENT: no such file or directory, open '/w/none.ts'"
             (Some "/w/none.ts"))
  /\ fst (ImportTracker.extractExports_with ImportTracker.analyzer_traverse
            (Sample.workspace BoundToInstance) (ImportTracker.new "/w")
            "/w/b.ts")
     = Throw (AnalysisError
                "Failed to extract exports: this.analyzer.traverse is not a function"
                (Some "/w/b.ts")).
Proof.
  split.
  - apply (proj1 (extract_failure_is_analysis_error
                    ImportTracker.analyzer_traverse
                    (Sample.workspace BoundToInstance) (ImportTracker.new "/w")
                    "/w/none.ts")
             (AnalysisError
                "Failed to read file: ENOENT: no such file or directory, open '/w/none.ts'"
                (Some "/w/none.ts"))); reflexivity.
  - apply (proj1 (proj2 (extract_failure_is_analysis_error
                           ImportTracker.analyzer_traverse
                           (Sample.workspace BoundToInstance)
                           (ImportTracker.new "/w") "/w/b.ts"))
             (OtherError "TypeError" "this.analyzer.traverse is not a function"));
      reflexivity.
Defined.

(** On a cache miss [extractImports] does not return: the [try] block ends
    in the error of [parseFile] or in the TypeError of the call of the
    missing [traverse], and the function throws an analysis error for the
    file.  The cache is written only after the traversal, so no call of
    [extractImports] on a new tracker returns. *)
Lemma extractImports_throws_on_miss (h : Host) (st : ImportTracker.state)
    (filePath : string) :
  ImportTracker.importsCache st !! filePath = None ->
  exists message st',
    ImportTracker.extractImports h st filePath
    = (Throw (AnalysisError message (Some filePath)), st')
    /\ ImportTracker.importsCache st' = ImportTracker.importsCache st.
Proof.
  intros Hmiss.
  unfold ImportTracker.extractImports, ImportTracker.extractImports_with,
    ImportTracker.extractImports_try.
  rewrite Hmiss.
  destruct (ASTAnalyzer.parseFile h (ImportTracker.analyzer st) filePath)
    as [parsed c] eqn:Ep.
  destruct parsed as [ast | u].
  - cbn. eauto.
  - destruct (parseFile_error h (ImportTracker.analyzer st) filePath u)
      as [m ->]; [rewrite Ep; reflexivity |].
    cbn. eauto.
Qed.

(** ** Dependency graph *)

(** A resolution of a relative specifier that names a path found it: it
    says [exists] and the path is not the empty string. *)
Lemma resolveImportPath_Some (h : Host) (importPath fromFile p : string) :
  startsWith importPath "." = true \/ startsWith importPath "/" = true ->
  ImportResolutionResult.resolvedPath
    (fst (ImportTracker.resolveImportPath h importPath fromFile)) = Some p ->
  ImportResolutionResult.exists_
    (fst (ImportTracker.resolveImportPath h importPath fromFile)) = true
  /\ truthy (Some p) = true.
Proof.
  intros Hrel. unfold ImportTracker.resolveImportPath.
  rewrite (relative_not_builtin importPath Hrel).
  rewrite (relative_not_bare importPath Hrel).
  destruct (ImportTracker.probe_loop h _ _ None []) as [f1 p1].
  destruct (truthy f1) eqn:E1; cbn [negb]; cbv beta iota.
  - rewrite E1. cbn [negb]. cbv beta iota. rewrite E1. cbn.
    intros ->. auto.
  - destruct (ImportTracker.probe_loop h _ _ f1 p1) as [f2 p2].
    destruct (truthy f2) eqn:E2; cbn [negb]; cbv beta iota.
    + rewrite E2. cbn. intros ->. auto.
    + destruct (existsSync h _); cbv beta iota.
      * destruct (truthy (Some _)) eqn:E3; cbn;
          [intros [= <-]; auto | discriminate].
      * rewrite E2. cbn. discriminate.
Qed.

(** The dependency set [buildDependencyGraph] collects for a file holds
    exactly the paths that the file's relative specifiers resolve to:
    specifiers that start neither with a dot nor with a slash, and
    specifiers that do not resolve, contribute nothing. *)
Lemma dependencies_of_spec (h : Host) (filePath : string)
    (imports : list ImportInfo.t) (p : string) :
  p ∈ ImportTracker.dependencies_of h filePath imports <->
  exists imp,
    In imp imports
    /\ (startsWith (ImportInfo.path imp) "." = true
        \/ startsWith (ImportInfo.path imp) "/" = true)
    /\ ImportResolutionResult.resolvedPath
         (fst (ImportTracker.resolveImportPath h (ImportInfo.path imp) filePath))
       = Some p.
Proof.
  unfold ImportTracker.dependencies_of.
  set (step := fun (dependencies : gset string) (imp : ImportInfo.t) => _).
  assert (Hfold : forall acc,
    p ∈ fold_left step imports acc <->
    p ∈ acc \/
    exists imp,
      In imp imports
      /\ (startsWith (ImportInfo.path imp) "." = true
          \/ startsWith (ImportInfo.path imp) "/" = true)
      /\ ImportResolutionResult.resolvedPath
           (fst (ImportTracker.resolveImportPath h (ImportInfo.path imp) filePath))
         = Some p).
  { induction imports as [| imp imports IH]; intros acc; simpl.
    - split; [auto | intros [H | (imp & [] & _)]; exact H].
    - rewrite IH. clear IH. subst step. cbn beta.
      destruct (startsWith (ImportInfo.path imp) ".") eqn:Edot;
        destruct (startsWith (ImportInfo.path imp) "/") eqn:Eslash;
        cbn [negb andb].
      4: { split.
           - intros [H | (i & Hin & Hrel & Hres)]; [auto |]. right.
             exists i. auto.
           - intros [H | (i & [<- | Hin] & Hrel & Hres)]; [auto | |].
             + rewrite Edot, Eslash in Hrel. destruct Hrel; discriminate.
             + right. exists i. auto. }
      all: assert (Hrel : startsWith (ImportInfo.path imp) "." = true
                          \/ startsWith (ImportInfo.path imp) "/" = true)
             by (rewrite ?Edot, ?Eslash; auto).
      all: destruct (ImportResolutionResult.resolvedPath
                       (fst (ImportTracker.resolveImportPath h
                               (ImportInfo.path imp) filePath)))
             as [q |] eqn:Eq.
      all: try (destruct (resolveImportPath_Some h _ _ _ Hrel Eq) as [-> ->];
                cbn [andb]; rewrite elem_of_union, elem_of_singleton).
      all: split;
        [ intros [H | (i & Hin & Hr & Hres)];
          [ try destruct H as [-> | H]; eauto 8 | right; exists i; auto ]
        | intros [H | (i & [<- | Hin] & Hr & Hres)];
          [ auto
          | try (rewrite Eq in Hres; injection Hres as <-; auto);
            try (rewrite Eq in Hres; discriminate)
          | right; exists i; auto ] ]. }
  rewrite Hfold. split; [intros [H | H]; [set_solver | exact H] | auto].
Qed.

(** C8 (the code misses it).  [/w/a.ts] holds [import { b } from "./b";]
    and [./b] resolves from it to [/w/b.ts], which exists.
    [buildDependencyGraph] and [findImporters] start with [extractImports]
    on [/w/a.ts], which throws (the analyzer has no [traverse]); neither
    returns a graph or a list.  Were the traversal supplied, the graph would
    map [/w/a.ts] to the set that holds [/w/b.ts] and [/w/b.ts] to the empty
    set, and [findImporters] would answer [/w/a.ts]. *)
Theorem buildDependencyGraph_throws :
  fst (ImportTracker.resolveImportPath (Sample.workspace BoundToInstance)
         "./b" "/w/a.ts")
  = ImportTracker.resolved_as "/w/b.ts"
  /\ fst (ImportTracker.buildDependencyGraph (Sample.workspace BoundToInstance)
            (ImportTracker.new "/w") ["/w/a.ts"; "/w/b.ts"])
     = Throw (AnalysisError
                "Failed to extract imports: this.analyzer.traverse is not a function"
                (Some "/w/a.ts"))
  /\ fst (ImportTracker.findImporters (Sample.workspace BoundToInstance)
            (ImportTracker.new "/w") "/w/b.ts" ["/w/a.ts"; "/w/b.ts"])
     = Throw (AnalysisError
                "Failed to extract imports: this.analyzer.traverse is not a function"
                (Some "/w/a.ts"))
  /\ match fst (ImportTracker.buildDependencyGraph_with
                  (Some ImportTracker.babel_traverse)
                  (Sample.workspace BoundToInstance)
                  (ImportTracker.new "/w") ["/w/a.ts"; "/w/b.ts"]) with
     | Ok graph => (graph !! "/w/a.ts", graph !! "/w/b.ts")
     | Throw _ => (None, None)
     end
     = (Some {[ "/w/b.ts" ]}, Some ∅)
  /\ fst (ImportTracker.findImporters_with (Some ImportTracker.babel_traverse)
            (Sample.workspace BoundToInstance)
            (ImportTracker.new "/w") "/w/b.ts" ["/w/a.ts"; "/w/b.ts"])
     = Ok ["/w/a.ts"].
Proof. repeat split; vm_compute; reflexivity. Qed.

(** With the [extractImports] of the source, [buildDependencyGraph] and
    [findImporters] throw on the first file whose imports are not cached. *)
Lemma graph_operations_throw_on_miss (h : Host) (st : ImportTracker.state)
    (filePath target : string) (rest : list string) :
  ImportTracker.importsCache st !! filePath = None ->
  exists message,
    fst (ImportTracker.buildDependencyGraph h st (filePath :: rest))
    = Throw (AnalysisError message (Some filePath))
    /\ fst (ImportTracker.findImporters h st target (filePath :: rest))
       = Throw (AnalysisError message (Some filePath)).
Proof.
  intros Hmiss.
  destruct (extractImports_throws_on_miss h st filePath Hmiss)
    as (message & st' & He & _).
  exists message.
  unfold ImportTracker.buildDependencyGraph,
    ImportTracker.buildDependencyGraph_with, ImportTracker.findImporters,
    ImportTracker.findImporters_with.
  unfold ImportTracker.extractImports in He.
  cbn [ImportTracker.buildDependencyGraph_loop ImportTracker.findImporters_loop].
  rewrite He. split; reflexivity.
Qed.

(** * Further properties *)

(** ** Parser cache *)

(** X1.  Once [parse] has returned a tree for a path, every later [parse]
    for that path returns the same tree, whatever text it is given and
    whatever the parser would make of it; the cache is left as it is. *)
Theorem parse_returns_cached_tree (h h' : Host) (c c' : gmap string node)
    (code code' filePath : string) (ast : node) :
  ASTAnalyzer.parse h c code filePath = (Ok ast, c') ->
  ASTAnalyzer.parse h' c' code' filePath = (Ok ast, c').
Proof.
  unfold ASTAnalyzer.parse. intros H.
  destruct (c !! filePath) as [cached |] eqn:Ec.
  - injection H as <- <-. rewrite Ec. reflexivity.
  - destruct (from_library (parser_parse h code)) as [parsed | e];
      [| discriminate].
    injection H as <- <-. rewrite lookup_insert_eq. reflexivity.
Qed.

Lemma parse_returns_cached_tree_witness :
  ASTAnalyzer.parse (Sample.workspace Unbound)
    (<["/w/f.ts" := Sample.f_a_b]> ∅) "function (" "/w/f.ts"
  = (Ok Sample.f_a_b, <["/w/f.ts" := Sample.f_a_b]> ∅).
Proof.
  apply (parse_returns_cached_tree (Sample.workspace Unbound)
           (Sample.workspace Unbound) ∅ _ Sample.f_a_b_text "function ("
           "/w/f.ts" Sample.f_a_b).
  reflexivity.
Defined.

(** X2.  [parse] adds exactly one entry to the cache when the path was not
    cached and the text parses; a cache hit and a parse error leave the
    number of cached trees unchanged. *)
Theorem getCacheSize_after_parse (h : Host) (c : gmap string node)
    (code filePath : string) :
  ASTAnalyzer.getCacheSize (snd (ASTAnalyzer.parse h c code filePath))
  = ASTAnalyzer.getCacheSize c
    + match c !! filePath, fst (ASTAnalyzer.parse h c code filePath) with
      | None, Ok _ => 1
      | _, _ => 0
      end.
Proof.
  unfold ASTAnalyzer.parse, ASTAnalyzer.getCacheSize.
  destruct (c !! filePath) as [cached |] eqn:Ec; simpl; [lia |].
  destruct (from_library (parser_parse h code)) as [parsed | e]; simpl;
    [| lia].
  rewrite map_size_insert_None by exact Ec. lia.
Qed.

(** X3.  [parseFile] reads the file before it looks at the cache: for a
    cached path it returns the cached tree when the read succeeds (the text
    read is not parsed), and throws the read error, as an analysis error for
    that path, when the read fails. *)
Theorem parseFile_on_cached_path (h : Host) (c : gmap string node)
    (filePath : string) (ast : node) :
  c !! filePath = Some ast ->
  ASTAnalyzer.parseFile h c filePath
  = (match readFileSync h filePath with
     | inl _ => Ok ast
     | inr (_, message) =>
         Throw (AnalysisError ("Failed to read file: " +:+ message)
                  (Some filePath))
     end, c).
Proof.
  intros Hc. unfold ASTAnalyzer.parseFile, ASTAnalyzer.parse.
  destruct (readFileSync h filePath) as [code | [name message]];
    cbn [from_library].
  - rewrite Hc. reflexivity.
  - reflexivity.
Qed.

Lemma parseFile_on_cached_path_witness :
  ASTAnalyzer.parseFile (Sample.workspace Unbound)
    (<["/w/gone.ts" := Sample.f_a_b]> ∅) "/w/gone.ts"
  = (Throw (AnalysisError
              "Failed to read file: ENOENT: no such file or directory, open '/w/gone.ts'"
              (Some "/w/gone.ts")),
     <["/w/gone.ts" := Sample.f_a_b]> ∅).
Proof.
  apply (parseFile_on_cached_path (Sample.workspace Unbound)
           (<["/w/gone.ts" := Sample.f_a_b]> ∅) "/w/gone.ts" Sample.f_a_b).
  apply lookup_insert_eq.
Defined.

(** ** Rendering of types and signatures *)

Lemma append_eq_empty (a b : string) : a +:+ b = "" -> a = "" /\ b = "".
Proof. destruct a; [auto | discriminate]. Qed.

Lemma join_nonempty (sep : string) (xs : list string) :
  xs <> [] -> Forall (fun x => x <> "") xs -> Js.join sep xs <> "".
Proof.
  unfold Js.join. intros Hne Hall.
  destruct xs as [| a xs]; [contradiction |].
  inversion Hall as [| ? ? Ha _]; subst.
  destruct xs as [| b xs]; [exact Ha |].
  change (String.concat sep (a :: b :: xs))
    with (a +:+ sep +:+ String.concat sep (b :: xs)).
  intros E. apply append_eq_empty in E. tauto.
Qed.

(** The rendering of a type the parser can produce is not the empty
    string. *)
Lemma tsTypeToString_nonempty :
  forall ty, well_formed_type ty = true -> ASTAnalyzer.tsTypeToString ty <> "".
Proof.
  fix IH 1. intros ty Hwf.
  destruct ty as [| | | | | | typeName | elementType | types |];
    cbn [ASTAnalyzer.tsTypeToString]; try discriminate.
  - destruct typeName as [name |]; [| discriminate].
    cbn in Hwf. destruct (String.eqb_spec name ""); [discriminate | assumption].
  - cbn in Hwf. intros E. apply append_eq_empty in E.
    destruct E as [_ E]. discriminate.
  - cbn [well_formed_type] in Hwf.
    apply join_nonempty.
    + destruct types; [discriminate |]. discriminate.
    + assert (Hall : forallb well_formed_type types = true)
        by (destruct types; [discriminate | exact Hwf]).
      clear Hwf. apply Forall_map.
      induction types as [| t types IHt]; constructor.
      * apply IH. cbn in Hall. apply andb_true_iff in Hall. tauto.
      * apply IHt. cbn in Hall. apply andb_true_iff in Hall. tauto.
Qed.

(** X5.  A return type annotation that the parser can produce is always
    rendered: the signature of a function with the annotation is the
    signature without it, followed by a colon, a space and the rendered
    type; the same holds for a method. *)
Theorem annotated_return_type_is_rendered (kind : function_kind)
    (id : option string) (key : node) (params : list node) (ty : TSType)
    (async generator : bool) :
  well_formed_type ty = true ->
  ASTAnalyzer.generateFunctionSignature kind id params
    (Some (TSTypeAnnotation ty)) async generator
  = ASTAnalyzer.generateFunctionSignature kind id params None async generator
    +:+ ": " +:+ ASTAnalyzer.tsTypeToString ty
  /\ ASTAnalyzer.generateMethodSignature key params
       (Some (TSTypeAnnotation ty)) async generator
     = ASTAnalyzer.generateMethodSignature key params None async generator
       +:+ ": " +:+ ASTAnalyzer.tsTypeToString ty.
Proof.
  intros Hwf.
  assert (Ht : truthy (Some (ASTAnalyzer.tsTypeToString ty)) = true).
  { apply truthy_Some, tsTypeToString_nonempty, Hwf. }
  unfold ASTAnalyzer.generateFunctionSignature,
    ASTAnalyzer.generateMethodSignature.
  cbn [ASTAnalyzer.extractReturnType]. rewrite Ht.
  change (truthy None) with false. cbv iota. split; reflexivity.
Qed.

Lemma annotated_return_type_is_rendered_witness :
  ASTAnalyzer.generateFunctionSignature FunctionDeclaration (Some "f") []
    (Some (TSTypeAnnotation (TSArrayType TSStringKeyword))) true false
  = "function async f(): string[]".
Proof.
  apply (proj1 (annotated_return_type_is_rendered FunctionDeclaration
                  (Some "f") (Identifier "f" false None) []
                  (TSArrayType TSStringKeyword) true false eq_refl)).
Defined.

(** ** Export promotion *)

(** [promote] leaves a symbol with another name as it is. *)
Lemma promote_lookup_other (name : string) (symbols : list SymbolInfo.t)
    (k : nat) (s : SymbolInfo.t) :
  symbols !! k = Some s -> SymbolInfo.name s <> name ->
  ASTAnalyzer.promote name symbols !! k = Some s.
Proof.
  revert k. induction symbols as [| a symbols IH]; intros k Hk Hne;
    [discriminate |].
  simpl. destruct (String.eqb_spec (SymbolInfo.name a) name) as [E | N].
  - destruct k as [| k]; [| exact Hk].
    simpl in Hk. injection Hk as ->. contradiction.
  - destruct k as [| k]; [exact Hk |]. simpl. apply IH; assumption.
Qed.

(** [promote] keeps the name at every position. *)
Lemma promote_lookup_name (name : string) (symbols : list SymbolInfo.t)
    (k : nat) (s : SymbolInfo.t) :
  symbols !! k = Some s ->
  exists s', ASTAnalyzer.promote name symbols !! k = Some s'
             /\ SymbolInfo.name s' = SymbolInfo.name s.
Proof.
  revert k. induction symbols as [| a symbols IH]; intros k Hk;
    [discriminate |].
  simpl. destruct (String.eqb (SymbolInfo.name a) name).
  - destruct k as [| k]; [| eauto].
    simpl in Hk. injection Hk as <-. eexists. split; reflexivity.
  - destruct k as [| k]; [eauto |]. simpl. apply IH, Hk.
Qed.

(** One promotion leaves a symbol alone when an earlier symbol has its
    name. *)
Lemma promote_lookup_shadowed (name : string) (symbols : list SymbolInfo.t)
    (i j : nat) (si sj : SymbolInfo.t) :
  i < j -> symbols !! i = Some si -> symbols !! j = Some sj ->
  SymbolInfo.name si = SymbolInfo.name sj ->
  ASTAnalyzer.promote name symbols !! j = Some sj.
Proof.
  revert i j. induction symbols as [| a symbols IH]; intros i j Hij Hi Hj Hn;
    [discriminate |].
  destruct j as [| j]; [lia |].
  simpl. destruct (String.eqb_spec (SymbolInfo.name a) name) as [E | N].
  - exact Hj.
  - simpl. destruct i as [| i].
    + simpl in Hi. injection Hi as <-.
      apply promote_lookup_other; [exact Hj | congruence].
    + apply (IH i j); [lia | exact Hi | exact Hj | exact Hn].
Qed.

(** X6.  Export promotion finds a symbol by name and takes the first one:
    a symbol that comes after another symbol with the same name (an
    overload, a method named like a function) keeps its [exported] flag,
    and every other field, through any sequence of promotions. *)
Theorem promote_never_marks_later_namesake (names : list string)
    (symbols : list SymbolInfo.t) (i j : nat) (si sj : SymbolInfo.t) :
  i < j -> symbols !! i = Some si -> symbols !! j = Some sj ->
  SymbolInfo.name si = SymbolInfo.name sj ->
  fold_left (fun l name => ASTAnalyzer.promote name l) names symbols !! j
  = Some sj.
Proof.
  revert symbols si. induction names as [| name names IH];
    intros symbols si Hij Hi Hj Hn; [exact Hj |].
  simpl.
  destruct (promote_lookup_name name symbols i si Hi) as (si' & Hi' & Hn').
  apply (IH _ si'); [exact Hij | exact Hi' | | congruence].
  apply (promote_lookup_shadowed name symbols i j si sj); assumption.
Qed.

Lemma promote_never_marks_later_namesake_witness :
  fold_left (fun l name => ASTAnalyzer.promote name l) ["f"; "f"]
    [ASTAnalyzer.mk_symbol "a.ts" "f" Kind.function None (Some "f()");
     ASTAnalyzer.mk_symbol "a.ts" "f" Kind.function (Sample.at_ 3 0)
       (Some "function f()")] !! 1
  = Some (ASTAnalyzer.mk_symbol "a.ts" "f" Kind.function (Sample.at_ 3 0)
            (Some "function f()")).
Proof.
  apply (promote_never_marks_later_namesake ["f"; "f"] _ 0 1
           (ASTAnalyzer.mk_symbol "a.ts" "f" Kind.function None (Some "f()"))
           (ASTAnalyzer.mk_symbol "a.ts" "f" Kind.function (Sample.at_ 3 0)
              (Some "function f()")));
    [lia | reflexivity | reflexivity | reflexivity].
Defined.

(** ** Symbol extraction as the program runs it *)










(** ** Signature extraction as the program runs it *)



(** ** Signature validator: results and caching *)

(** [getSignatures] has no throwing path. *)
Lemma getSignatures_returns (h : Host) (st : SignatureValidator.state)
    (filePath : string) :
  exists signatures,
    fst (SignatureValidator.getSignatures h st filePath) = Ok signatures.
Proof.
  unfold SignatureValidator.getSignatures.
  destruct (SignatureValidator.signatureCache st !! filePath); [eauto |].
  destruct (ASTAnalyzer.parseFile h _ filePath) as [parsed c].
  destruct (let* ast := parsed in _); cbn; eauto.
Qed.

(** X9.  [validateFunctionCall] returns a result for every input, and in
    every result: the confidence is 1 when an expected signature is given
    and 0 otherwise, an error message is present exactly when the call is
    not valid, a valid call always comes with the expected signature, and
    the actual signature is the name followed by the arguments between
    parentheses. *)
Theorem validateFunctionCall_result_shape (h : Host)
    (st : SignatureValidator.state) (functionName : string)
    (args : list string) (filePath : option string) :
  exists r,
    fst (SignatureValidator.validateFunctionCall h st functionName args
           filePath) = Ok r
    /\ SignatureMatchResult.confidence r
       = (if present (SignatureMatchResult.expectedSignature r) then 1 else 0)
    /\ present (SignatureMatchResult.error r)
       = negb (SignatureMatchResult.valid r)
    /\ implb (SignatureMatchResult.valid r)
         (present (SignatureMatchResult.expectedSignature r)) = true
    /\ SignatureMatchResult.actualSignature r
       = functionName +:+ "(" +:+ Js.join ", " args +:+ ")".
Proof.
  unfold SignatureValidator.validateFunctionCall.
  destruct filePath as [path |]; [| eexists; repeat split; reflexivity].
  destruct (truthy (Some path)); [| eexists; repeat split; reflexivity].
  destruct (getSignatures_returns h st path) as [signatures Hsig].
  destruct (SignatureValidator.getSignatures h st path) as [r st'].
  simpl in Hsig. subst r. cbn [try_catch Js.bind fst].
  unfold SignatureValidator.check_call.
  destruct (Js.find _ signatures) as [sig |];
    [| eexists; repeat split; reflexivity].
  destruct (Nat.ltb _ _); [eexists; repeat split; reflexivity |].
  destruct (Nat.ltb _ _); eexists; repeat split; reflexivity.
Qed.


(** ** Known-API usage *)

(** No parameter of the API table is named like a property every object
    inherits. *)
Lemma api_definition_names (library api : string)
    (definition : list (string * ParameterDefinition.t)) :
  api_definition library api = Some definition ->
  Forall (fun entry =>
            Js.includes SignatureValidator.object_prototype_properties
              (fst entry) = false)
    definition.
Proof.
  unfold api_definition.
  destruct (object_get SignatureValidator.getCommonAPIs library)
    as [apis |] eqn:El; [| discriminate].
  intros Ea. apply object_get_In in El. apply object_get_In in Ea.
  simpl in El.
  repeat destruct El as [El | El]; try contradiction;
    injection El as _ <-; simpl in Ea;
    repeat destruct Ea as [Ea | Ea]; try contradiction;
    injection Ea as _ <-; repeat constructor.
Qed.

(** X11.  [validateAPIUsage] answers [valid] with a single warning, and no
    error, for a library or an API that is not in its table.  For an API of
    the table it reports one error for each required parameter that is not
    a key of [parameters], one warning for each key that is neither a
    parameter of the definition nor a property every object inherits (such
    as [toString]), and the call is valid exactly when no required
    parameter is missing: unknown keys never make a call invalid. *)
Theorem validateAPIUsage_result (library api : string) (keys : list string) :
  match api_definition library api with
  | None =>
      APIValidationResult.valid
        (SignatureValidator.validateAPIUsage library api keys) = true
      /\ APIValidationResult.errors
           (SignatureValidator.validateAPIUsage library api keys) = []
      /\ length (APIValidationResult.warnings
                   (SignatureValidator.validateAPIUsage library api keys)) = 1
  | Some definition =>
      APIValidationResult.errors
        (SignatureValidator.validateAPIUsage library api keys)
      = map (fun name =>
               "Missing required parameter '" +:+ name +:+ "' for "
               +:+ library +:+ "." +:+ api)
          (missing_required definition keys)
      /\ APIValidationResult.warnings
           (SignatureValidator.validateAPIUsage library api keys)
         = map (fun key =>
                  "Unknown parameter '" +:+ key +:+ "' for "
                  +:+ library +:+ "." +:+ api)
             (unknown_keys definition keys)
      /\ APIValidationResult.valid
           (SignatureValidator.validateAPIUsage library api keys)
         = match missing_required definition keys with
           | [] => true
           | _ => false
           end
  end.
Proof.
  destruct (api_definition library api) as [definition |] eqn:Ed.
  - pose proof (api_definition_names library api definition Ed) as Hnames.
    unfold api_definition in Ed.
    unfold SignatureValidator.validateAPIUsage.
    destruct (object_get SignatureValidator.getCommonAPIs library)
      as [apis |]; [| discriminate].
    rewrite Ed. cbn [APIValidationResult.errors APIValidationResult.warnings
                       APIValidationResult.valid].
    assert (Herr : forall init,
      fold_left
        (fun errors (entry : string * ParameterDefinition.t) =>
           let '(paramName, paramDef) := entry in
           if ParameterDefinition.required paramDef
              && negb (SignatureValidator.has_property keys paramName)
           then errors ++
                  ["Missing required parameter '" +:+ paramName +:+
                   "' for " +:+ library +:+ "." +:+ api]
           else errors)
        definition init
      = init ++
        map (fun name =>
               "Missing required parameter '" +:+ name +:+ "' for "
               +:+ library +:+ "." +:+ api)
          (missing_required definition keys)).
    { unfold missing_required. clear Ed.
      induction Hnames as [| [n d] definition Hn _ IH]; intros init;
        [simpl; rewrite app_nil_r; reflexivity |].
      cbn [fold_left List.filter map fst snd].
      cbn [fst] in Hn.
      replace (SignatureValidator.has_property keys n)
        with (Js.includes keys n)
        by (unfold SignatureValidator.has_property;
            rewrite Hn, orb_false_r; reflexivity).
      rewrite IH.
      destruct (ParameterDefinition.required d && negb (Js.includes keys n));
        cbn [map fst app]; [rewrite <- app_assoc |]; reflexivity. }
    assert (Hwarn : forall init,
      fold_left
        (fun warnings paramName =>
           if negb (SignatureValidator.has_property (map fst definition)
                      paramName)
           then warnings ++
                  ["Unknown parameter '" +:+ paramName +:+ "' for "
                   +:+ library +:+ "." +:+ api]
           else warnings)
        keys init
      = init ++
        map (fun key =>
               "Unknown parameter '" +:+ key +:+ "' for "
               +:+ library +:+ "." +:+ api)
          (unknown_keys definition keys)).
    { clear Herr. unfold unknown_keys, SignatureValidator.has_property.
      induction keys as [| k keys IH]; intros init;
        [simpl; rewrite app_nil_r; reflexivity |].
      cbn [fold_left List.filter]. rewrite IH, negb_orb.
      destruct (negb (Js.includes (map fst definition) k)
                && negb (Js.includes
                           SignatureValidator.object_prototype_properties k));
        simpl; [rewrite <- app_assoc |]; reflexivity. }
    rewrite Herr, Hwarn. cbn [app].
    split; [reflexivity |]. split; [reflexivity |].
    rewrite length_map.
    destruct (missing_required definition keys); reflexivity.
  - unfold api_definition in Ed.
    unfold SignatureValidator.validateAPIUsage.
    destruct (object_get SignatureValidator.getCommonAPIs library)
      as [apis |]; [rewrite Ed |]; repeat split; reflexivity.
Qed.

(** ** Snippets *)

(** A callback of [validateCodeSignatures] that returns has pushed nothing,
    or the one result of [validateFunctionCall] for some name and
    arguments, when that result is invalid with a positive confidence. *)
Lemma code_enter_cases (h : Host) (filePath : option string) (n : node)
    (acc acc' : list SignatureMatchResult.t * SignatureValidator.state) :
  enter [("CallExpression", SignatureValidator.code_CallExpression h filePath)]
    n acc = Ok acc' ->
  fst acc' = fst acc
  \/ exists name args r,
       fst (SignatureValidator.validateFunctionCall h (snd acc) name args
              filePath) = Ok r
       /\ SignatureMatchResult.valid r = false
       /\ 0 < SignatureMatchResult.confidence r
       /\ fst acc' = fst acc ++ [r].
Proof.
  unfold enter.
  destruct (object_get _ _) as [hd |] eqn:E;
    [| intros [= <-]; left; reflexivity].
  apply object_get_In in E. destruct E as [E | []]. injection E as _ <-.
  unfold SignatureValidator.code_CallExpression.
  destruct n; try (intros [= <-]; left; reflexivity).
  match goal with
  | |- context [match ?f with Some _ => _ | None => _ end] =>
      destruct f as [name |]
  end; [| intros [= <-]; left; reflexivity].
  destruct (truthy (Some name)); [| intros [= <-]; left; reflexivity].
  destruct acc as [results st].
  destruct (visitor_this h); cbn [call_this Js.bind]; [| discriminate].
  destruct (SignatureValidator.validateFunctionCall h st name _ filePath)
    as [[r | e] st1] eqn:Ev; cbn [Js.bind]; [| discriminate].
  destruct (SignatureMatchResult.valid r) eqn:Evalid; cbn [negb andb];
    [intros [= <-]; left; reflexivity |].
  destruct (Nat.ltb_spec 0 (SignatureMatchResult.confidence r));
    intros [= <-]; [| left; reflexivity].
  right. eexists name, _, r. cbn [fst snd]. rewrite Ev. auto.
Qed.

(** X12.  [validateCodeSignatures] reports nothing, whatever the snippet
    and the file path: the analyzer has no [traverse] to call, the error is
    swallowed and the empty list returned.  The signature cache is left as
    it is and the analyzer keeps what [parse] cached under the file path,
    or under [inline].  Were the traversal supplied, a snippet given
    without a file path would still yield the empty list, since no call of
    it can be looked up. *)
Theorem validateCodeSignatures_reports_nothing (h : Host)
    (st : SignatureValidator.state) (code : string)
    (filePath : option string) :
  SignatureValidator.validateCodeSignatures h st code filePath
  = ([],
     {| SignatureValidator.analyzer :=
          snd (ASTAnalyzer.parse h (SignatureValidator.analyzer st) code
                 (SignatureValidator.snippet_key filePath));
        SignatureValidator.signatureCache :=
          SignatureValidator.signatureCache st |})
  /\ fst (SignatureValidator.validateCodeSignatures_with
            (Some ImportTracker.babel_traverse) h st code None) = [].
Proof.
  split.
  - unfold SignatureValidator.validateCodeSignatures,
      SignatureValidator.validateCodeSignatures_with.
    destruct (ASTAnalyzer.parse h _ code _) as [[ast | e] c]; reflexivity.
  - unfold SignatureValidator.validateCodeSignatures_with.
    destruct (ASTAnalyzer.parse h _ code _) as [[ast | e] c];
      [| reflexivity].
    cbn [Js.bind ImportTracker.call_traverse ImportTracker.babel_traverse].
    unfold ImportTracker.babel_traverse, traverse_default.
    match goal with
    | |- context [visit ?v ast ?s0] =>
        destruct (visit v ast s0) as [[results st'] | e] eqn:Ev
    end; [| reflexivity].
    apply (visit_preserves _ (fun acc => fst acc = [])) in Ev;
      [exact Ev | | reflexivity].
    intros n s s' Hs He. apply code_enter_cases in He.
    destruct He as [-> | (name & args & r & Hr & _ & Hc & _)]; [exact Hs |].
    cbn in Hr. injection Hr as <-. cbn in Hc. lia.
Qed.

(** X14.  A snippet validated under a file path is cached as the tree of
    that file: when the path was not cached and the snippet parses, every
    later [parseFile] of the path returns the tree of the snippet, whatever
    text the file holds on disk and whether or not that text parses. *)
Theorem snippet_tree_shadows_file (h : Host) (st : SignatureValidator.state)
    (code filePath disk_text : string) (ast : node) :
  filePath <> "" ->
  SignatureValidator.analyzer st !! filePath = None ->
  parser_parse h code = inl ast ->
  readFileSync h filePath = inl disk_text ->
  ASTAnalyzer.parseFile h
    (SignatureValidator.analyzer
       (snd (SignatureValidator.validateCodeSignatures h st code
               (Some filePath))))
    filePath
  = (Ok ast,
     SignatureValidator.analyzer
       (snd (SignatureValidator.validateCodeSignatures h st code
               (Some filePath)))).
Proof.
  intros Hpath Hmiss Hparse Hread.
  assert (Hst :
    snd (SignatureValidator.validateCodeSignatures h st code (Some filePath))
    = {| SignatureValidator.analyzer :=
           <[filePath := ast]> (SignatureValidator.analyzer st);
         SignatureValidator.signatureCache :=
           SignatureValidator.signatureCache st |}).
  { unfold SignatureValidator.validateCodeSignatures,
      SignatureValidator.validateCodeSignatures_with,
      SignatureValidator.snippet_key.
    rewrite (truthy_Some filePath Hpath).
    unfold ASTAnalyzer.parse. rewrite Hmiss, Hparse. reflexivity. }
  rewrite Hst. cbn [SignatureValidator.analyzer].
  unfold ASTAnalyzer.parseFile, ASTAnalyzer.parse.
  rewrite Hread. cbn [from_library]. rewrite lookup_insert_eq.
  reflexivity.
Qed.

(** [/w/bad.ts] holds text that the parser rejects; after the snippet
    [function f(a, b?) {}] was validated under that path, [parseFile]
    returns the tree of the snippet for it. *)
Lemma snippet_tree_shadows_file_witness :
  ASTAnalyzer.parseFile (Sample.workspace Unbound)
    (SignatureValidator.analyzer
       (snd (SignatureValidator.validateCodeSignatures
               (Sample.workspace Unbound) SignatureValidator.new
               Sample.f_a_b_text (Some "/w/bad.ts"))))
    "/w/bad.ts"
  = (Ok Sample.f_a_b,
     SignatureValidator.analyzer
       (snd (SignatureValidator.validateCodeSignatures
               (Sample.workspace Unbound) SignatureValidator.new
               Sample.f_a_b_text (Some "/w/bad.ts")))).
Proof.
  apply (snippet_tree_shadows_file (Sample.workspace Unbound)
           SignatureValidator.new Sample.f_a_b_text "/w/bad.ts"
           "function (" Sample.f_a_b);
    [discriminate | reflexivity | reflexivity | reflexivity].
Defined.

(** ** Queries over several files *)

Lemma includes_In (xs : list string) (x : string) :
  Js.includes xs x = true <-> In x xs.
Proof.
  unfold Js.includes. rewrite existsb_exists. split.
  - intros (y & Hin & E). apply String.eqb_eq in E. subst. exact Hin.
  - intros Hin. exists x. split; [exact Hin | apply String.eqb_refl].
Qed.

(** On a cache miss [extractExports] does not return, and leaves the two
    caches of the tracker as they are. *)
Lemma extractExports_throws_on_miss (h : Host) (st : ImportTracker.state)
    (filePath : string) :
  ImportTracker.exportsCache st !! filePath = None ->
  exists message st',
    ImportTracker.extractExports h st filePath
    = (Throw (AnalysisError message (Some filePath)), st')
    /\ ImportTracker.exportsCache st' = ImportTracker.exportsCache st
    /\ ImportTracker.importsCache st' = ImportTracker.importsCache st.
Proof.
  intros Hmiss.
  unfold ImportTracker.extractExports, ImportTracker.extractExports_with,
    ImportTracker.extractExports_try.
  rewrite Hmiss.
  destruct (ASTAnalyzer.parseFile h (ImportTracker.analyzer st) filePath)
    as [parsed c] eqn:Ep.
  destruct parsed as [ast | u].
  - cbn. eauto.
  - destruct (parseFile_error h (ImportTracker.analyzer st) filePath u)
      as [m ->]; [rewrite Ep; reflexivity |].
    cbn. eauto.
Qed.

Lemma getAllExports_loop_source (h : Host) (files : list string) (f : string) :
  forall acc st,
    fst (ImportTracker.getAllExports_loop ImportTracker.analyzer_traverse h
           files acc st) !! f
    = match cached_nonempty (ImportTracker.exportsCache st) files f with
      | Some exports => Some exports
      | None => acc !! f
      end.
Proof.
  unfold cached_nonempty.
  induction files as [| p files IH]; intros acc st.
  - simpl. destruct (ImportTracker.exportsCache st !! f) as [[| x l] |];
      reflexivity.
  - cbn [ImportTracker.getAllExports_loop Js.includes existsb].
    fold (Js.includes files f).
    destruct (ImportTracker.exportsCache st !! p) as [cached |] eqn:Ec.
    + unfold ImportTracker.extractExports_with at 1. rewrite Ec.
      rewrite IH.
      destruct (String.eqb_spec f p) as [-> | Hfp].
      * rewrite Ec. destruct cached as [| x l]; cbn [length Nat.ltb Nat.leb orb].
        -- reflexivity.
        -- destruct (Js.includes files p); [reflexivity |].
           apply lookup_insert_eq.
      * cbn [orb].
        destruct (ImportTracker.exportsCache st !! f) as [[| x l] |];
          try destruct (Js.includes files f); try reflexivity;
          destruct (Nat.ltb 0 (length cached)); try reflexivity;
          apply lookup_insert_ne; congruence.
    + destruct (extractExports_throws_on_miss h st p Ec)
        as (message & st1 & E & Hc & _).
      unfold ImportTracker.extractExports in E. rewrite E, IH, Hc.
      destruct (String.eqb_spec f p) as [-> | Hfp]; cbn [orb];
        [rewrite Ec |]; reflexivity.
Qed.

Lemma getAllImports_loop_source (h : Host) (files : list string) (f : string) :
  forall acc st,
    fst (ImportTracker.getAllImports_loop ImportTracker.analyzer_traverse h
           files acc st) !! f
    = match cached_nonempty (ImportTracker.importsCache st) files f with
      | Some imports => Some imports
      | None => acc !! f
      end.
Proof.
  unfold cached_nonempty.
  induction files as [| p files IH]; intros acc st.
  - simpl. destruct (ImportTracker.importsCache st !! f) as [[| x l] |];
      reflexivity.
  - cbn [ImportTracker.getAllImports_loop Js.includes existsb].
    fold (Js.includes files f).
    destruct (ImportTracker.importsCache st !! p) as [cached |] eqn:Ec.
    + unfold ImportTracker.extractImports_with at 1. rewrite Ec.
      rewrite IH.
      destruct (String.eqb_spec f p) as [-> | Hfp].
      * rewrite Ec. destruct cached as [| x l]; cbn [length Nat.ltb Nat.leb orb].
        -- reflexivity.
        -- destruct (Js.includes files p); [reflexivity |].
           apply lookup_insert_eq.
      * cbn [orb].
        destruct (ImportTracker.importsCache st !! f) as [[| x l] |];
          try destruct (Js.includes files f); try reflexivity;
          destruct (Nat.ltb 0 (length cached)); try reflexivity;
          apply lookup_insert_ne; congruence.
    + destruct (extractImports_throws_on_miss h st p Ec)
        as (message & st1 & E & Hc).
      unfold ImportTracker.extractImports in E. rewrite E, IH, Hc.
      destruct (String.eqb_spec f p) as [-> | Hfp]; cbn [orb];
        [rewrite Ec |]; reflexivity.
Qed.

(** X16.  [getAllExports] and [getAllImports] answer from the caches
    alone: extraction fails for every file that is not cached (the analyzer
    has no [traverse]) and the failure is skipped, so the map holds exactly
    the files asked for whose cached list is not empty.  On a new tracker
    both maps are empty, whatever the files hold. *)
Theorem getAll_from_cache (h : Host) (st : ImportTracker.state)
    (filePaths : list string) (f : string) :
  fst (ImportTracker.getAllExports h st filePaths) !! f
  = cached_nonempty (ImportTracker.exportsCache st) filePaths f
  /\ fst (ImportTracker.getAllImports h st filePaths) !! f
     = cached_nonempty (ImportTracker.importsCache st) filePaths f.
Proof.
  unfold ImportTracker.getAllExports, ImportTracker.getAllExports_with,
    ImportTracker.getAllImports, ImportTracker.getAllImports_with.
  rewrite getAllExports_loop_source, getAllImports_loop_source.
  rewrite !lookup_empty.
  split; destruct (cached_nonempty _ filePaths f); reflexivity.
Qed.

(** X18.  [exportExists] throws for a file whose exports are not cached,
    and [findExportingFile], unlike [getAllExports], does not skip such a
    file: it throws at the first search path that is not cached, unless a
    cached path before it exports the symbol.  The error is an analysis
    error for that path. *)
Theorem findExportingFile_throws_on_miss (h : Host)
    (st : ImportTracker.state) (symbolName : string)
    (before : list string) (p : string) (rest : list string) :
  Forall (fun q => exists exports,
            ImportTracker.exportsCache st !! q = Some exports
            /\ ImportTracker.exports_name symbolName exports = false)
    before ->
  ImportTracker.exportsCache st !! p = None ->
  exists message,
    fst (ImportTracker.exportExists h st p symbolName)
    = Throw (AnalysisError message (Some p))
    /\ fst (ImportTracker.findExportingFile h st symbolName
              (before ++ p :: rest))
       = Throw (AnalysisError message (Some p)).
Proof.
  intros Hbefore Hmiss.
  destruct (extractExports_throws_on_miss h st p Hmiss)
    as (message & st1 & E & _).
  unfold ImportTracker.extractExports in E.
  exists message. split.
  - unfold ImportTracker.exportExists, ImportTracker.exportExists_with.
    rewrite E. reflexivity.
  - unfold ImportTracker.findExportingFile.
    induction Hbefore as [| q before (exports & Hq & Hn) _ IH]; simpl.
    + rewrite E. reflexivity.
    + unfold ImportTracker.extractExports_with at 1. rewrite Hq, Hn.
      exact IH.
Qed.

Lemma findExportingFile_throws_on_miss_witness :
  exists message,
    fst (ImportTracker.exportExists (Sample.workspace BoundToInstance)
           (ImportTracker.new "/w") "/w/b.ts" "b")
    = Throw (AnalysisError message (Some "/w/b.ts"))
    /\ fst (ImportTracker.findExportingFile (Sample.workspace BoundToInstance)
              (ImportTracker.new "/w") "b" ([] ++ "/w/b.ts" :: ["/w/a.ts"]))
       = Throw (AnalysisError message (Some "/w/b.ts")).
Proof.
  apply (findExportingFile_throws_on_miss (Sample.workspace BoundToInstance)
           (ImportTracker.new "/w") "b" [] "/w/b.ts" ["/w/a.ts"]);
    [constructor | reflexivity].
Defined.

(** ** Resolver: what a result guarantees *)

(** The path a probing loop ends with is the one it started with, or a
    path that exists. *)
Lemma probe_loop_found (h : Host) (candidate : string -> string)
    (exts : list string) (foundPath : option string) (probed : list string)
    (p : string) :
  fst (ImportTracker.probe_loop h candidate exts foundPath probed) = Some p ->
  foundPath = Some p \/ existsSync h p = true.
Proof.
  rewrite probe_loop_first_existing.
  destruct (first_existing (existsSync h) (map candidate exts))
    as [[q |] pr] eqn:E; cbn [fst].
  - intros [= <-]. right. exact (proj2 (first_existing_In _ _ _ _ E)).
  - auto.
Qed.

(** X21.  A path to which the resolver takes a relative or absolute
    specifier exists on disk, with one exception: the resolved path itself
    is returned when a [package.json] is found inside it, although every
    probe before, that of the path itself included, had failed. *)
Theorem resolveImportPath_sound (h : Host) (importPath fromFile p : string) :
  startsWith importPath "." = true \/ startsWith importPath "/" = true ->
  ImportResolutionResult.resolvedPath
    (fst (ImportTracker.resolveImportPath h importPath fromFile)) = Some p ->
  existsSync h p = true
  \/ (p = path_resolve h (path_dirname h fromFile) importPath
      /\ existsSync h (path_join h p "package.json") = true).
Proof.
  intros Hrel. unfold ImportTracker.resolveImportPath.
  rewrite (relative_not_builtin importPath Hrel).
  rewrite (relative_not_bare importPath Hrel).
  destruct (ImportTracker.probe_loop h _ _ None []) as [f1 p1] eqn:E1.
  assert (H1 : forall q, f1 = Some q -> existsSync h q = true).
  { intros q ->.
    destruct (probe_loop_found h _ _ None [] q
                ltac:(rewrite E1; reflexivity)); [discriminate | assumption]. }
  destruct (truthy f1) eqn:T1; cbn [negb]; cbv beta iota.
  - rewrite T1. cbn [negb]. cbv beta iota. rewrite T1. cbn.
    intros ->. left. apply H1. reflexivity.
  - destruct (ImportTracker.probe_loop h _ _ f1 p1) as [f2 p2] eqn:E2.
    assert (H2 : forall q, f2 = Some q -> existsSync h q = true).
    { intros q ->.
      destruct (probe_loop_found h _ _ f1 p1 q
                  ltac:(rewrite E2; reflexivity)); auto. }
    destruct (truthy f2) eqn:T2; cbn [negb]; cbv beta iota.
    + rewrite T2. cbn. intros ->. left. apply H2. reflexivity.
    + destruct (existsSync h _) eqn:Em; cbv beta iota.
      * destruct (truthy (Some _)) eqn:T3; cbn;
          [intros [= <-]; right; auto | discriminate].
      * rewrite T2. cbn. discriminate.
Qed.

Lemma resolveImportPath_sound_witness :
  existsSync (Sample.workspace Unbound) "/w/b.ts" = true
  \/ ("/w/b.ts"
      = path_resolve (Sample.workspace Unbound)
          (path_dirname (Sample.workspace Unbound) "/w/a.ts") "./b"
      /\ existsSync (Sample.workspace Unbound)
           (path_join (Sample.workspace Unbound) "/w/b.ts" "package.json")
         = true).
Proof.
  apply (resolveImportPath_sound (Sample.workspace Unbound) "./b" "/w/a.ts"
           "/w/b.ts"); [left |]; reflexivity.
Defined.

(** X22.  The resolver never suggests an alternative path: [alternatives]
    is absent from a result that found the path, and is the empty list in
    every result that did not. *)
Theorem resolveImportPath_alternatives (h : Host)
    (importPath fromFile : string) :
  ImportResolutionResult.alternatives
    (fst (ImportTracker.resolveImportPath h importPath fromFile))
  = if ImportResolutionResult.exists_
         (fst (ImportTracker.resolveImportPath h importPath fromFile))
    then None else Some [].
Proof.
  unfold ImportTracker.resolveImportPath.
  destruct (Js.includes _ _ || _); [reflexivity |].
  destruct (negb _ && negb _); [reflexivity |].
  destruct (ImportTracker.probe_loop h _ _ None []) as [f1 p1].
  destruct (negb (truthy f1)).
  - destruct (ImportTracker.probe_loop h _ _ f1 p1) as [f2 p2].
    destruct (negb (truthy f2)).
    + destruct (existsSync h _).
      * destruct (truthy (Some _)); reflexivity.
      * destruct f2 as [q |]; [destruct (truthy (Some q)) |]; reflexivity.
    + destruct f2 as [q |]; [destruct (truthy (Some q)) |]; reflexivity.
  - destruct (negb (truthy f1)).
    + destruct (existsSync h _).
      * destruct (truthy (Some _)); reflexivity.
      * destruct f1 as [q |]; [destruct (truthy (Some q)) |]; reflexivity.
    + destruct f1 as [q |]; [destruct (truthy (Some q)) |]; reflexivity.
Qed.

(** ** Duplicate names *)

Lemma findDuplicates_loop_spec (arr : list string) :
  forall (seen : gset string) (duplicates : list string),
    NoDup duplicates ->
    (forall x, In x duplicates -> x ∈ seen) ->
    NoDup (ConsistencyCheckTools.findDuplicates_loop arr seen duplicates)
    /\ forall x,
         In x (ConsistencyCheckTools.findDuplicates_loop arr seen duplicates)
         <-> In x duplicates
             \/ 2 <= count_occ String.string_dec arr x
                     + (if bool_decide (x ∈ seen) then 1 else 0).
Proof.
  induction arr as [| item rest IH]; intros seen duplicates Hnd Hsub.
  - simpl. split; [exact Hnd |]. intros x.
    split; [auto | intros [H | H]; [exact H |]].
    destruct (bool_decide (x ∈ seen)); lia.
  - cbn [ConsistencyCheckTools.findDuplicates_loop count_occ].
    destruct (bool_decide (item ∈ seen)) eqn:Eseen.
    + apply bool_decide_eq_true in Eseen.
      destruct (Js.includes duplicates item) eqn:Einc; cbn [negb].
      * apply includes_In in Einc.
        destruct (IH seen duplicates Hnd Hsub) as [Hn Hx].
        split; [exact Hn |]. intros x. rewrite Hx.
        destruct (String.string_dec item x) as [-> | Hne];
          [| reflexivity].
        split; auto.
      * assert (Hni : ~ In item duplicates)
          by (rewrite <- includes_In, Einc; discriminate).
        destruct (IH seen (duplicates ++ [item])) as [Hn Hx].
        { apply NoDup_app. split; [exact Hnd |].
          split; [| apply NoDup_singleton].
          intros y Hy Hitem. apply Hni.
          apply list_elem_of_In in Hy. apply list_elem_of_In in Hitem.
          destruct Hitem as [<- | []]. exact Hy. }
        { intros x Hin. apply in_app_iff in Hin.
          destruct Hin as [Hin | [<- | []]]; auto. }
        split; [exact Hn |]. intros x. rewrite Hx, in_app_iff. cbn [In].
        destruct (String.string_dec item x) as [-> | Hne].
        -- rewrite (bool_decide_eq_true_2 _ Eseen).
           split; [intros _; right; lia | auto].
        -- split; [intros [[H | [H | []]] | H]; auto; contradiction | tauto].
    + apply bool_decide_eq_false in Eseen.
      destruct (IH ({[ item ]} ∪ seen) duplicates Hnd) as [Hn Hx].
      { intros x Hin. apply elem_of_union. right. auto. }
      split; [exact Hn |]. intros x. rewrite Hx.
      destruct (String.string_dec item x) as [-> | Hne].
      * rewrite (bool_decide_eq_false_2 _ Eseen).
        rewrite bool_decide_eq_true_2
          by (apply elem_of_union; left; apply elem_of_singleton; reflexivity).
        split; (intros [H | H]; [auto | right; lia]).
      * assert (Hiff : x ∈ ({[ item ]} ∪ seen : gset string) <-> x ∈ seen).
        { rewrite elem_of_union, elem_of_singleton.
          split; [intros [-> | H]; [contradiction | exact H] | auto]. }
        rewrite (bool_decide_ext _ _ Hiff). reflexivity.
Qed.

(** X23.  [findDuplicates] returns each name that occurs at least twice in
    the array, once: the result has no repetition, and a name is in it
    exactly when the array holds it two times or more. *)
Theorem findDuplicates_spec (arr : list string) :
  NoDup (ConsistencyCheckTools.findDuplicates arr)
  /\ forall x,
       In x (ConsistencyCheckTools.findDuplicates arr)
       <-> 2 <= count_occ String.string_dec arr x.
Proof.
  destruct (findDuplicates_loop_spec arr ∅ []) as [Hn Hx];
    [constructor | intros x [] |].
  split; [exact Hn |]. intros x.
  unfold ConsistencyCheckTools.findDuplicates. rewrite Hx.
  rewrite bool_decide_eq_false_2 by apply not_elem_of_empty.
  split; [intros [[] | H]; lia | intros H; right; lia].
Qed.

(** ** The caches of the exports map *)

Lemma buildCaches_step_source (h : Host) (st : ExportsMapResource.state)
    (filePath : string) :
  ImportTracker.exportsCache (ExportsMapResource.importTracker st) = ∅ ->
  let st' :=
    ExportsMapResource.buildCaches_step ImportTracker.analyzer_traverse h st
      filePath in
  ExportsMapResource.exportsCache st' = ExportsMapResource.exportsCache st
  /\ ExportsMapResource.importsCache st' = ExportsMapResource.importsCache st
  /\ ImportTracker.exportsCache (ExportsMapResource.importTracker st') = ∅
  /\ ImportTracker.importsCache (ExportsMapResource.importTracker st')
     = ImportTracker.importsCache (ExportsMapResource.importTracker st).
Proof.
  intros Hempty.
  destruct (extractExports_throws_on_miss h
              (ExportsMapResource.importTracker st) filePath)
    as (message & tracker & E & He & Hi);
    [rewrite Hempty; apply lookup_empty |].
  unfold ImportTracker.extractExports in E.
  unfold ExportsMapResource.buildCaches_step. rewrite E. cbn.
  rewrite He, Hi. auto.
Qed.

(** X26.  On a resource whose tracker has cached no exports (a new
    resource, or one after [clearCache]), [buildCaches] adds no entry to the
    caches of the resource, whatever files the workspace holds:
    [extractExports] throws for each file and the [catch] skips it, its
    imports included.  The tracker has still cached no exports afterwards,
    so the same holds of every later call. *)
Theorem buildCaches_adds_nothing (h : Host) (files : list string) (now : nat)
    (st : ExportsMapResource.state) :
  ImportTracker.exportsCache (ExportsMapResource.importTracker st) = ∅ ->
  ExportsMapResource.exportsCache (ExportsMapResource.buildCaches h files now st)
  = ExportsMapResource.exportsCache st
  /\ ExportsMapResource.importsCache
       (ExportsMapResource.buildCaches h files now st)
     = ExportsMapResource.importsCache st
  /\ ImportTracker.exportsCache
       (ExportsMapResource.importTracker
          (ExportsMapResource.buildCaches h files now st)) = ∅.
Proof.
  unfold ExportsMapResource.buildCaches, ExportsMapResource.buildCaches_with.
  cbn [ExportsMapResource.exportsCache ExportsMapResource.importsCache
       ExportsMapResource.importTracker].
  revert st. induction files as [| filePath files IH]; intros st Hempty;
    [auto |].
  cbn [fold_left].
  destruct (buildCaches_step_source h st filePath Hempty)
    as (He & Hi & Ht & _).
  destruct (IH _ Ht) as (He' & Hi' & Ht').
  rewrite He', Hi', He, Hi. auto.
Qed.

Lemma buildCaches_adds_nothing_witness :
  ExportsMapResource.exportsCache
    (ExportsMapResource.buildCaches (Sample.workspace BoundToInstance)
       ["/w/a.ts"; "/w/b.ts"] 1 (ExportsMapResource.new "/w"))
  = ∅
  /\ ExportsMapResource.importsCache
       (ExportsMapResource.buildCaches (Sample.workspace BoundToInstance)
          ["/w/a.ts"; "/w/b.ts"] 1 (ExportsMapResource.new "/w"))
     = ∅
  /\ ImportTracker.exportsCache
       (ExportsMapResource.importTracker
          (ExportsMapResource.buildCaches (Sample.workspace BoundToInstance)
             ["/w/a.ts"; "/w/b.ts"] 1 (ExportsMapResource.new "/w"))) = ∅.
Proof.
  apply (buildCaches_adds_nothing (Sample.workspace BoundToInstance)
           ["/w/a.ts"; "/w/b.ts"] 1 (ExportsMapResource.new "/w")).
  reflexivity.
Defined.
